(** * optimint: the node orchestrator, chain-state seeding and the mock DA client

    A shallow embedding of [state/state.go] (package [state]: [NewFromGenesisDoc]),
    of the node orchestrator (package [node]: [NewNode], [OnStart],
    [mempoolPublishLoop], [publishBlock], [makeBlock], [broadcastBlock]) and of the
    mock data-availability client (package [mock]).

    Conventions.
    - A Go [uint64] is a [Z] in [0, 2^64); arithmetic on it wraps ([wrap64]).
    - A Go [error] is its message; [nil] is [None]. A Go [(T, error)] result is
      a [result T].
    - A method with a pointer receiver takes the receiver's state and returns
      the new one next to its Go result.
    - The Go interfaces [store.Store], [mempool.Mempool],
      [da.DataAvailabilityLayerClient] and the network client are type classes;
      the orchestrator is written against the classes, as the Go code is
      written against the interfaces.
    - Logging is not modelled. *)

From Stdlib Require Import ZArith List String Bool Lia.
From stdpp Require Import gmap strings list fin_maps.
Import ListNotations.

Local Open Scope string_scope.
Local Open Scope Z_scope.

(** ** Errors, bytes and machine integers *)

Definition error := string.

Inductive result (A : Type) : Type :=
| Ok (a : A)
| Err (e : error).
Arguments Ok {A} a.
Arguments Err {A} e.

Definition bytes := list Byte.byte.

Definition wrap64 (z : Z) : Z := z mod 2 ^ 64.

(** [[n]byte{}]: [n] zero bytes. *)
Definition zero_bytes (n : nat) : bytes := repeat Byte.x00 n.

(** ** Package [types]: the block model

    The struct declarations are read off the composite literal in [makeBlock]. *)
Module types.

Definition Tx := bytes.
Definition Txs := list Tx.

Record Version := { Version_Block : Z; Version_App : Z }.

Record Header := {
  Header_Version : Version;
  NamespaceID : bytes;
  Height : Z;
  Time : Z;
  LastHeaderHash : bytes;
  LastCommitHash : bytes;
  DataHash : bytes;
  ConsensusHash : bytes;
  AppHash : bytes;
  LastResultsHash : bytes;
  ProposerAddress : bytes
}.

Record IntermediateStateRoots := { RawRootsList : list bytes }.
Record EvidenceData := { Evidence : list bytes }.

Record Data := {
  Data_Txs : Txs;
  Data_IntermediateStateRoots : IntermediateStateRoots;
  Data_Evidence : EvidenceData
}.

Record Block := { Block_Header : Header; Block_Data : Data }.

(** [block.Header.DataHash = h] *)
Definition set_DataHash (h : bytes) (b : Block) : Block :=
  let hd := Block_Header b in
  {| Block_Header :=
       {| Header_Version := Header_Version hd;
          NamespaceID := NamespaceID hd;
          Height := Height hd;
          Time := Time hd;
          LastHeaderHash := LastHeaderHash hd;
          LastCommitHash := LastCommitHash hd;
          DataHash := h;
          ConsensusHash := ConsensusHash hd;
          AppHash := AppHash hd;
          LastResultsHash := LastResultsHash hd;
          ProposerAddress := ProposerAddress hd |};
     Block_Data := Block_Data b |}.

(** [types.Hash] takes any value that marshals to bytes and returns its
    digest or the marshalling error; the function is not among the
    sources, so it is a method of the class of hashable types. *)
Class Hashable (A : Type) := { Hash : A -> result bytes }.

End types.

(** ** Package [store]: the block store interface *)
Module store.

Class Store (S : Type) := {
  Height : S -> Z;
  SaveBlock : types.Block -> S -> S * option error;
  LoadBlock : Z -> S -> result types.Block
}.

(** Modelled from the spec: the block store behind [store.NewBlockStore]
    (package [store] is not among the sources). Blocks are kept by height
    key; [Height] is the last saved height, 0 if empty; saving over an
    existing height overwrites; loading a height never saved fails. *)
Record DefaultBlockStore := {
  blocks : gmap Z types.Block;
  height : Z
}.

Definition NewBlockStore : DefaultBlockStore :=
  {| blocks := ∅; height := 0 |}.

Definition DefaultBlockStore_SaveBlock (b : types.Block) (bs : DefaultBlockStore)
  : DefaultBlockStore * option error :=
  let h := types.Height (types.Block_Header b) in
  ({| blocks := <[h := b]> (blocks bs); height := h |}, None).

Definition DefaultBlockStore_LoadBlock (h : Z) (bs : DefaultBlockStore)
  : result types.Block :=
  match blocks bs !! h with
  | Some b => Ok b
  | None => Err "block not found"
  end.

#[global] Instance DefaultBlockStore_Store : Store DefaultBlockStore := {|
  Height := height;
  SaveBlock := DefaultBlockStore_SaveBlock;
  LoadBlock := DefaultBlockStore_LoadBlock
|}.

End store.

(** ** Package [mempool]: the transaction pool interface *)
Module mempool.

Record TxInfo := { SenderID : Z; SenderP2PID : string }.

Class Mempool (M : Type) := {
  CheckTx : types.Tx -> TxInfo -> M -> M * option error;
  ReapMaxBytesMaxGas : Z -> Z -> M -> list types.Tx
}.

(** Modelled from the spec: the list-backed pool behind
    [mempool.NewCListMempool] (package [mempool] is not among the sources).
    Entries are appended at the tail in admission order; reaping returns the
    longest prefix within the byte budget and, unless the gas budget is
    negative, within the gas budget, and removes nothing. *)
Record MempoolTx := { tx : types.Tx; gasWanted : Z; sender : Z }.

Record CListMempool := { txs : list MempoolTx }.

Definition NewCListMempool : CListMempool := {| txs := [] |}.

Fixpoint reap (maxBytes maxGas totalBytes totalGas : Z) (l : list MempoolTx)
  : list types.Tx :=
  match l with
  | [] => []
  | e :: l' =>
      let newBytes := totalBytes + Z.of_nat (length (tx e)) in
      let newGas := totalGas + gasWanted e in
      if (maxBytes <? newBytes) then []
      else if (0 <=? maxGas) && (maxGas <? newGas) then []
      else tx e :: reap maxBytes maxGas newBytes newGas l'
  end.

Definition CListMempool_CheckTx (t : types.Tx) (i : TxInfo) (m : CListMempool)
  : CListMempool * option error :=
  ({| txs := (txs m ++ [{| tx := t; gasWanted := 0; sender := SenderID i |}])%list |}, None).

#[global] Instance CListMempool_Mempool : Mempool CListMempool := {|
  CheckTx := CListMempool_CheckTx;
  ReapMaxBytesMaxGas := fun maxBytes maxGas m => reap maxBytes maxGas 0 0 (txs m)
|}.

End mempool.

(** ** Package [da]: the data-availability client interface *)
Module da.

Inductive StatusCode := StatusSuccess | StatusError.

Record ResultSubmitBlock := { Code : StatusCode; Message : string }.

Class DataAvailabilityLayerClient (D : Type) := {
  Init : bytes -> D -> D * option error;
  Start : D -> D * option error;
  Stop : D -> D * option error;
  SubmitBlock : types.Block -> D -> D * ResultSubmitBlock
}.

End da.

(** ** Package [mock]: the in-memory DA client

    The logger of the client is not modelled: [Init], [Start] and [Stop] are
    those of a client that holds a logger, as the one [NewNode] initialises;
    on a client whose logger is nil the Go [Start] and [Stop] panic. *)
Module mock.

Record MockDataAvailabilityLayerClient := { Blocks : list types.Block }.

Definition Init (config : bytes) (m : MockDataAvailabilityLayerClient)
  : MockDataAvailabilityLayerClient * option error := (m, None).

Definition Start (m : MockDataAvailabilityLayerClient)
  : MockDataAvailabilityLayerClient * option error := (m, None).

Definition Stop (m : MockDataAvailabilityLayerClient)
  : MockDataAvailabilityLayerClient * option error := (m, None).

Definition SubmitBlock (block : types.Block) (m : MockDataAvailabilityLayerClient)
  : MockDataAvailabilityLayerClient * da.ResultSubmitBlock :=
  ({| Blocks := (Blocks m ++ [block])%list |},
   {| da.Code := da.StatusSuccess; da.Message := "OK" |}).

#[global] Instance Mock_Client : da.DataAvailabilityLayerClient MockDataAvailabilityLayerClient := {|
  da.Init := Init;
  da.Start := Start;
  da.Stop := Stop;
  da.SubmitBlock := SubmitBlock
|}.

End mock.

(** A Go call either returns or panics. *)
Inductive go (A : Type) : Type :=
| Return (a : A)
| Panic (msg : string).
Arguments Return {A} a.
Arguments Panic {A} msg.

Definition go_bind {A B} (m : go A) (k : A -> go B) : go B :=
  match m with
  | Return a => k a
  | Panic msg => Panic msg
  end.

Notation "'call' x <- m 'in' k" := (go_bind m (fun x => k))
  (at level 10, x pattern, m at level 100, k at level 200).

(** ** Package [lltypes] (lazyledger-core): what the code uses of the library

    The genesis document is the library's struct; a nil slice or pointer is
    [None]. The library's operations are the methods of a class: validation
    and completion of a genesis document (in Go it completes the document in
    place; here it returns the completed one), the validator constructors and
    the version constants. *)
Module lltypes.

Record GenesisValidator := {
  Address : bytes;
  PubKey : bytes;
  Power : Z;
  Name : string
}.

Record GenesisDoc (CP : Type) := {
  GenesisTime : Z;
  ChainID : string;
  InitialHeight : Z;
  ConsensusParams : option CP;
  Validators : option (list GenesisValidator);
  AppHash : bytes
}.
Arguments GenesisTime {CP} _.
Arguments ChainID {CP} _.
Arguments InitialHeight {CP} _.
Arguments ConsensusParams {CP} _.
Arguments Validators {CP} _.
Arguments AppHash {CP} _.

Record BlockID := { BlockID_Hash : bytes }.

Class Core (CP V VS : Type) := {
  BlockProtocol : Z;
  TMCoreSemVer : string;
  ValidateAndComplete : GenesisDoc CP -> result (GenesisDoc CP);
  NewValidator : bytes -> Z -> V;
  NewValidatorSet : list V -> go VS;
  CopyIncrementProposerPriority : Z -> VS -> go VS;
  Size : VS -> nat
}.

End lltypes.

(** ** Package [state]: [state/state.go] *)
Module state.
Import lltypes.

Record Consensus := { Consensus_Block : Z; Consensus_App : Z }.
Record Version := { Version_Consensus : Consensus; Software : string }.

Record State (CP VS : Type) := {
  State_Version : Version;
  State_ChainID : string;
  State_InitialHeight : Z;
  LastBlockHeight : Z;
  LastBlockID : BlockID;
  LastBlockTime : Z;
  NextValidators : VS;
  Validators : VS;
  LastValidators : VS;
  LastHeightValidatorsChanged : Z;
  State_ConsensusParams : CP;
  LastHeightConsensusParamsChanged : Z;
  LastResultsHash : bytes;
  State_AppHash : bytes
}.
Arguments State_Version {CP VS} _.
Arguments State_ChainID {CP VS} _.
Arguments State_InitialHeight {CP VS} _.
Arguments LastBlockHeight {CP VS} _.
Arguments LastBlockID {CP VS} _.
Arguments LastBlockTime {CP VS} _.
Arguments NextValidators {CP VS} _.
Arguments Validators {CP VS} _.
Arguments LastValidators {CP VS} _.
Arguments LastHeightValidatorsChanged {CP VS} _.
Arguments State_ConsensusParams {CP VS} _.
Arguments LastHeightConsensusParamsChanged {CP VS} _.
Arguments LastResultsHash {CP VS} _.
Arguments State_AppHash {CP VS} _.

Section WithCore.
Context {CP V VS : Type} `{!Core CP V VS}.

Definition InitStateVersion : Version :=
  {| Version_Consensus := {| Consensus_Block := BlockProtocol; Consensus_App := 0 |};
     Software := TMCoreSemVer |}.

(** The slice [validators] built by the loop of [NewFromGenesisDoc]. *)
Definition genesis_validators (vals : list GenesisValidator) : list V :=
  map (fun val => NewValidator (PubKey val) (Power val)) vals.

(** The [if]/[else] of [NewFromGenesisDoc]: the current and the next
    validator set. *)
Definition initial_validator_sets (genDoc : GenesisDoc CP) : go (VS * VS) :=
  match lltypes.Validators genDoc with
  | None =>
      call validatorSet <- NewValidatorSet [] in
      call nextValidatorSet <- NewValidatorSet [] in
      Return (validatorSet, nextValidatorSet)
  | Some vals =>
      let validators := genesis_validators vals in
      call validatorSet <- NewValidatorSet validators in
      call fresh <- NewValidatorSet validators in
      call nextValidatorSet <- CopyIncrementProposerPriority 1 fresh in
      Return (validatorSet, nextValidatorSet)
  end.

Definition NewFromGenesisDoc (genDoc : GenesisDoc CP) : go (result (State CP VS)) :=
  match ValidateAndComplete genDoc with
  | Err err => Return (Err ("error in genesis doc: " +:+ err))
  | Ok genDoc =>
      call sets <- initial_validator_sets genDoc in
      call lastValidators <- NewValidatorSet [] in
      match ConsensusParams genDoc with
      | None => Panic "invalid memory address or nil pointer dereference"
      | Some params =>
          Return (Ok {|
            State_Version := InitStateVersion;
            State_ChainID := ChainID genDoc;
            State_InitialHeight := InitialHeight genDoc;
            LastBlockHeight := 0;
            LastBlockID := {| BlockID_Hash := [] |};
            LastBlockTime := GenesisTime genDoc;
            NextValidators := snd sets;
            Validators := fst sets;
            LastValidators := lastValidators;
            LastHeightValidatorsChanged := InitialHeight genDoc;
            State_ConsensusParams := params;
            LastHeightConsensusParamsChanged := InitialHeight genDoc;
            LastResultsHash := [];
            State_AppHash := lltypes.AppHash genDoc
          |})
      end
  end.

End WithCore.

End state.

(** ** Package [config]: the fields of the node configuration the code reads *)
Module config.

Record P2PConfig := { ListenAddress : string; Seeds : string }.

Record NodeConfig := {
  P2P : P2PConfig;
  Aggregator : bool;
  BlockTime : Z;
  DALayer : string;
  DAConfig : bytes
}.

End config.

(** ** Package [p2p]: the network client, as the orchestrator uses it

    [GossipTx] is called by the gossip loop only; its answer is an input of
    the loop's step (see [publish]). *)
Module p2p.

Record Tx := { Data : bytes; From : string }.

(** The one handler the node installs: [func(tx) { n.incomingTxCh <- tx }]. *)
Inductive TxHandler := SendOn_incomingTxCh.

Class Client (P : Type) := {
  NewClient : config.P2PConfig -> option bytes -> string -> result P;
  Start : P -> P * option error;
  Close : P -> P * option error;
  SetTxHandler : TxHandler -> P -> P
}.

End p2p.

(** ** Package [proxy] and the event bus (lazyledger-core) *)
Module proxy.

Class AppConns (C A : Type) := {
  NewAppConns : C -> A;
  Start : A -> A * option error
}.

Class EventBus (E : Type) := {
  NewEventBus : E;
  EventBus_Start : E -> E * option error
}.

End proxy.

(** ** Package [registry]: DA backends by name *)
Module registry.

(** Modelled from the spec: the registry of DA backends (package
    [da/registry] is not among the sources): a mapping from backend name
    to the zero value its constructor returns; [GetClient] answers [nil]
    for a name that is not registered. *)
Class Registry (D : Type) := { clients : gmap string D }.

Definition GetClient {D} `{!Registry D} (name : string) : option D :=
  clients !! name.

End registry.

(** ** Package [node]: the orchestrator *)
Module node.

(** The three loops [OnStart] launches with [go]. *)
Inductive Loop := go_mempoolReadLoop | go_mempoolPublishLoop | go_aggregationLoop.

(** Calls on the collaborators, in the order the orchestrator makes them. *)
Inductive Event :=
| proxyApp_Start
| eventBus_Start
| p2p_NewClient
| registry_GetClient (name : string)
| dalc_Init
| dalc_Start
| dalc_Stop
| dalc_SubmitBlock (block : types.Block)
| P2P_Start
| P2P_Close
| P2P_SetTxHandler (h : p2p.TxHandler)
| Mempool_ReapMaxBytesMaxGas (maxBytes maxGas : Z)
| BlockStore_Height
| BlockStore_LoadBlock (height : Z)
| BlockStore_SaveBlock (block : types.Block)
| go_ (l : Loop).

(** A call on the DA client. *)
Definition is_dalc_call (e : Event) : bool :=
  match e with
  | dalc_Init | dalc_Start | dalc_Stop | dalc_SubmitBlock _ => true
  | _ => false
  end.

(** The channel [incomingTxCh], the peer-id table and the context are the
    plumbing of the loops and are kept in the loop model. *)
Record Node (S M D P A E G : Type) := {
  eventBus : E;
  proxyApp : A;
  genesis : G;
  conf : config.NodeConfig;
  P2P : P;
  Mempool : M;
  BlockStore : S;
  dalc : D
}.
Arguments eventBus {S M D P A E G} _.
Arguments proxyApp {S M D P A E G} _.
Arguments genesis {S M D P A E G} _.
Arguments conf {S M D P A E G} _.
Arguments P2P {S M D P A E G} _.
Arguments Mempool {S M D P A E G} _.
Arguments BlockStore {S M D P A E G} _.
Arguments dalc {S M D P A E G} _.

Section Methods.
Context {S M D P A E G : Type}.
Context `{!store.Store S} `{!mempool.Mempool M}
        `{!da.DataAvailabilityLayerClient D} `{!p2p.Client P}.
Context `{!types.Hashable types.Header} `{!types.Hashable types.Data}.

#[local] Abbreviation Node := (Node S M D P A E G).

Definition set_P2P (p : P) (n : Node) : Node :=
  {| eventBus := eventBus n; proxyApp := proxyApp n; genesis := genesis n;
     conf := conf n; P2P := p; Mempool := Mempool n;
     BlockStore := BlockStore n; dalc := dalc n |}.

Definition set_BlockStore (s : S) (n : Node) : Node :=
  {| eventBus := eventBus n; proxyApp := proxyApp n; genesis := genesis n;
     conf := conf n; P2P := P2P n; Mempool := Mempool n;
     BlockStore := s; dalc := dalc n |}.

Definition set_Mempool (m : M) (n : Node) : Node :=
  {| eventBus := eventBus n; proxyApp := proxyApp n; genesis := genesis n;
     conf := conf n; P2P := P2P n; Mempool := m;
     BlockStore := BlockStore n; dalc := dalc n |}.

Definition set_dalc (d : D) (n : Node) : Node :=
  {| eventBus := eventBus n; proxyApp := proxyApp n; genesis := genesis n;
     conf := conf n; P2P := P2P n; Mempool := Mempool n;
     BlockStore := BlockStore n; dalc := d |}.

(** A method of [*Node]: it returns its Go result, the node after the
    call and the calls it made on the collaborators. *)
Definition method (R : Type) : Type := Node -> R * Node * list Event.

Definition ret {R} (r : R) : method R := fun n => (r, n, []).

Definition bind {R R'} (m : method R) (k : R -> method R') : method R' :=
  fun n =>
    let '(r, n1, t1) := m n in
    let '(r', n2, t2) := k r n1 in
    (r', n2, (t1 ++ t2)%list).

Notation "'run' x <- m 'then' k" := (bind m (fun x => k))
  (at level 10, x pattern, m at level 100, k at level 200).

(** The collaborator calls. *)
Definition call_P2P_Start : method (option error) := fun n =>
  let '(p, err) := p2p.Start (P2P n) in (err, set_P2P p n, [P2P_Start]).

Definition call_P2P_SetTxHandler (h : p2p.TxHandler) : method unit := fun n =>
  (tt, set_P2P (p2p.SetTxHandler h (P2P n)) n, [P2P_SetTxHandler h]).

Definition call_dalc_Start : method (option error) := fun n =>
  let '(d, err) := da.Start (dalc n) in (err, set_dalc d n, [dalc_Start]).

Definition call_Reap (maxBytes maxGas : Z) : method (list types.Tx) := fun n =>
  (mempool.ReapMaxBytesMaxGas maxBytes maxGas (Mempool n), n,
   [Mempool_ReapMaxBytesMaxGas maxBytes maxGas]).

Definition call_Height : method Z := fun n =>
  (store.Height (BlockStore n), n, [BlockStore_Height]).

Definition call_LoadBlock (height : Z) : method (result types.Block) := fun n =>
  (store.LoadBlock height (BlockStore n), n, [BlockStore_LoadBlock height]).

Definition call_SaveBlock (block : types.Block) : method (option error) := fun n =>
  let '(s, err) := store.SaveBlock block (BlockStore n) in
  (err, set_BlockStore s n, [BlockStore_SaveBlock block]).

Definition spawn (l : Loop) : method unit := fun n => (tt, n, [go_ l]).

Definition get_conf : method config.NodeConfig := fun n => (conf n, n, []).

(** [makeBlock]; [now] is the reading of [time.Now().UnixNano()]. *)
Definition makeBlock (now : Z) (height : Z) (txs : types.Txs)
  : method (result types.Block) :=
  run r <- call_LoadBlock (wrap64 (height - 1)) then
  match r with
  | Err err => ret (Err err)
  | Ok lastBlock =>
      match types.Hash (types.Block_Header lastBlock) with
      | Err err => ret (Err err)
      | Ok lastHash =>
          let block := {|
            types.Block_Header := {|
              types.Header_Version :=
                {| types.Version_Block := 0; types.Version_App := 0 |};
              types.NamespaceID := zero_bytes 8;
              types.Height := height;
              types.Time := wrap64 now;
              types.LastHeaderHash := lastHash;
              types.LastCommitHash := zero_bytes 32;
              types.DataHash := zero_bytes 32;
              types.ConsensusHash := zero_bytes 32;
              types.AppHash := zero_bytes 32;
              types.LastResultsHash := zero_bytes 32;
              types.ProposerAddress := []
            |};
            types.Block_Data := {|
              types.Data_Txs := txs;
              types.Data_IntermediateStateRoots := {| types.RawRootsList := [] |};
              types.Data_Evidence := {| types.Evidence := [] |}
            |}
          |} in
          match types.Hash (types.Block_Data block) with
          | Err err => ret (Err err)
          | Ok dataHash => ret (Ok (types.set_DataHash dataHash block))
          end
      end
  end.

Definition broadcastBlock (block : types.Block) : method (option error) :=
  ret None.

Definition publishBlock (now : Z) : method (option error) :=
  let maxBlockSize := 32 * 1024 in
  run txs <- call_Reap maxBlockSize (-1) then
  if (length txs =? 0)%nat then ret None
  else
    run height <- call_Height then
    run r <- makeBlock now (wrap64 (height + 1)) txs then
    match r with
    | Err err => ret (Some err)
    | Ok block =>
        run err <- call_SaveBlock block then
        match err with
        | Some err => ret (Some err)
        | None => broadcastBlock block
        end
    end.

(** One firing of the ticker in [aggregationLoop]: the error of
    [publishBlock] is logged and dropped. *)
Definition aggregation_tick (now : Z) : method unit :=
  run _ <- publishBlock now then ret tt.

(** The ticks of [aggregationLoop], one per entry: the clock reading at
    the tick and the pool as the other goroutines have left it by then. *)
Fixpoint aggregation_ticks (ticks : list (Z * M)) : method unit :=
  match ticks with
  | [] => ret tt
  | (now, pool) :: ticks' =>
      run _ <- (fun n => (tt, set_Mempool pool n, [])) then
      run _ <- aggregation_tick now then
      aggregation_ticks ticks'
  end.

Definition OnStart : method (option error) :=
  run err <- call_P2P_Start then
  match err with
  | Some err => ret (Some ("error while starting P2P client: " +:+ err))
  | None =>
      run err <- call_dalc_Start then
      match err with
      | Some err =>
          ret (Some ("error while starting data availability layer client: " +:+ err))
      | None =>
          run _ <- spawn go_mempoolReadLoop then
          run _ <- spawn go_mempoolPublishLoop then
          run c <- get_conf then
          run _ <- (if config.Aggregator c then spawn go_aggregationLoop else ret tt) then
          run _ <- call_P2P_SetTxHandler p2p.SendOn_incomingTxCh then
          ret None
      end
  end.

(** [multierr.Append]: nil when both are nil, the one that is not nil when
    the other is, and otherwise the two combined, whose message joins the
    two messages with a semicolon. *)
Definition multierr_Append (left right : option error) : option error :=
  match left, right with
  | None, _ => right
  | Some _, None => left
  | Some l, Some r => Some (l +:+ "; " +:+ r)
  end.

Definition call_dalc_Stop : method (option error) := fun n =>
  let '(d, err) := da.Stop (dalc n) in (err, set_dalc d n, [dalc_Stop]).

Definition call_P2P_Close : method (option error) := fun n =>
  let '(p, err) := p2p.Close (P2P n) in (err, set_P2P p n, [P2P_Close]).

(** [OnStop] returns nothing; the result here is the error it hands to the
    logger. *)
Definition OnStop : method (option error) :=
  run err <- call_dalc_Stop then
  run err' <- call_P2P_Close then
  ret (multierr_Append err err').

(** [OnReset] *)
Definition OnReset : go (option error) := Panic "OnReset - not implemented!".

End Methods.

Section Constructor.
Context {D P A E C CP : Type}.
Context `{!da.DataAvailabilityLayerClient D} `{!p2p.Client P}
        `{!proxy.AppConns C A} `{!proxy.EventBus E} `{!registry.Registry D}.

(** A call with its entry in the list of calls. *)
Definition logged {R} (e : Event) (r : R) : R * list Event := (r, [e]).

Definition after {R R'} (m : R * list Event) (k : R -> R' * list Event)
  : R' * list Event :=
  let '(r, t) := m in
  let '(r', t') := k r in
  (r', (t ++ t')%list).

Notation "'step' x <- m 'then' k" := (after m (fun x => k))
  (at level 10, x pattern, m at level 100, k at level 200).

(** [NewNode]; a nil [nodeKey] is [None]. The result is the node or the
    error, with the calls made on the collaborators. *)
Definition NewNode (conf : config.NodeConfig) (nodeKey : option bytes)
    (clientCreator : C) (genesis : lltypes.GenesisDoc CP)
  : result (Node store.DefaultBlockStore mempool.CListMempool D P A E
                 (lltypes.GenesisDoc CP)) * list Event :=
  step (proxyApp, err) <-
    logged proxyApp_Start (proxy.Start (proxy.NewAppConns clientCreator)) then
  match err with
  | Some err => (Err ("error starting proxy app connections: " +:+ err), [])
  | None =>
      step (eventBus, err) <-
        logged eventBus_Start (proxy.EventBus_Start proxy.NewEventBus) then
      match err with
      | Some err => (Err err, [])
      | None =>
          step r <-
            logged p2p_NewClient
              (p2p.NewClient (config.P2P conf) nodeKey (lltypes.ChainID genesis)) then
          match r with
          | Err err => (Err err, [])
          | Ok client =>
              step dalc <-
                logged (registry_GetClient (config.DALayer conf))
                  (registry.GetClient (config.DALayer conf)) then
              match dalc with
              | None =>
                  (Err ("couldn't get data availability client named '"
                        +:+ config.DALayer conf +:+ "'"), [])
              | Some dalc =>
                  step (dalc, err) <-
                    logged dalc_Init (da.Init (config.DAConfig conf) dalc) then
                  match err with
                  | Some err =>
                      (Err ("data availability layer client initialization error: "
                            +:+ err), [])
                  | None =>
                      (Ok {| eventBus := eventBus;
                             proxyApp := proxyApp;
                             genesis := genesis;
                             conf := conf;
                             P2P := client;
                             Mempool := mempool.NewCListMempool;
                             BlockStore := store.NewBlockStore;
                             dalc := dalc |}, [])
                  end
              end
          end
      end
  end.

End Constructor.

End node.

(** ** [mempoolPublishLoop]: the gossip loop as a step machine

    The loop walks the pool's linked list. Nothing in the node removes an
    entry from the pool, so the list only grows at its tail and an element
    pointer is the index of its entry; [nil] is [None]. A step runs the loop
    from one of its three waiting or calling points to the next one. What the
    rest of the program and the network do in between is the step's input. *)
Module publish.

(** The input of a step. *)
Record Env := {
  (** entries [CheckTx] appended since the previous step *)
  admitted : list mempool.MempoolTx;
  (** [ctx.Done()] is closed *)
  Done : bool;
  (** with both cases of a [select] ready: [ctx.Done()] is the one chosen *)
  pick_Done : bool;
  (** the answer of [n.P2P.GossipTx(ctx, tx)], if the step calls it *)
  GossipTx_err : option error
}.

Inductive PC :=
| WaitTxs     (** the [select] on [TxsWaitChan()] *)
| Send        (** the head of the inner [for] *)
| WaitNext    (** the [select] on [next.NextWaitChan()] *)
| Returned
| Panicked.

Record Loop := {
  rawMempool : list mempool.MempoolTx;
  next : option nat;
  pc : PC
}.

Inductive Event := GossipTx (tx : types.Tx) (err : option error).

(** The list operations of [clist] the loop uses. *)
Definition TxsFront (pool : list mempool.MempoolTx) : option nat :=
  match pool with [] => None | _ :: _ => Some 0%nat end.

Definition TxsWaitChan_ready (pool : list mempool.MempoolTx) : bool :=
  match pool with [] => false | _ :: _ => true end.

Definition Next (pool : list mempool.MempoolTx) (e : nat) : option nat :=
  if (S e <? length pool)%nat then Some (S e) else None.

Definition NextWaitChan_ready (pool : list mempool.MempoolTx) (e : nat) : bool :=
  (S e <? length pool)%nat.

(** A two-way [select]: [None] blocks, [Some true] takes the [ctx.Done()]
    case, [Some false] the other one. *)
Definition select (ready done pick_done : bool) : option bool :=
  match ready, done with
  | false, false => None
  | true, false => Some false
  | false, true => Some true
  | true, true => Some pick_done
  end.

(** The head of the outer [for]: wait for transactions when the cursor is
    nil, send otherwise. *)
Definition top (pool : list mempool.MempoolTx) (nx : option nat) : Loop :=
  match nx with
  | None => {| rawMempool := pool; next := None; pc := WaitTxs |}
  | Some _ => {| rawMempool := pool; next := nx; pc := Send |}
  end.

Definition step (env : Env) (l : Loop) : Loop * list Event :=
  let pool := (rawMempool l ++ admitted env)%list in
  match pc l with
  | WaitTxs =>
      match select (TxsWaitChan_ready pool) (Done env) (pick_Done env) with
      | None => ({| rawMempool := pool; next := next l; pc := WaitTxs |}, [])
      | Some true => ({| rawMempool := pool; next := next l; pc := Returned |}, [])
      | Some false =>
          match TxsFront pool with
          | Some e => (top pool (Some e), [])
          | None => ({| rawMempool := pool; next := None; pc := Send |}, [])
          end
      end
  | Send =>
      match next l with
      | None => ({| rawMempool := pool; next := None; pc := Panicked |}, [])
      | Some e =>
          match pool !! e with
          | None => ({| rawMempool := pool; next := next l; pc := Panicked |}, [])
          | Some memTx =>
              match GossipTx_err env with
              | Some err =>
                  ({| rawMempool := pool; next := next l; pc := Send |},
                   [GossipTx (mempool.tx memTx) (Some err)])
              | None =>
                  match Next pool e with
                  | None =>
                      ({| rawMempool := pool; next := next l; pc := WaitNext |},
                       [GossipTx (mempool.tx memTx) None])
                  | Some nx =>
                      ({| rawMempool := pool; next := Some nx; pc := Send |},
                       [GossipTx (mempool.tx memTx) None])
                  end
              end
          end
      end
  | WaitNext =>
      match next l with
      | None => ({| rawMempool := pool; next := None; pc := Panicked |}, [])
      | Some e =>
          match select (NextWaitChan_ready pool e) (Done env) (pick_Done env) with
          | None => ({| rawMempool := pool; next := next l; pc := WaitNext |}, [])
          | Some true => ({| rawMempool := pool; next := next l; pc := Returned |}, [])
          | Some false => (top pool (Next pool e), [])
          end
      end
  | Returned => ({| rawMempool := pool; next := next l; pc := Returned |}, [])
  | Panicked => ({| rawMempool := pool; next := next l; pc := Panicked |}, [])
  end.

(** The loop as [OnStart] launches it: [var next *clist.CElement]. *)
Definition start (pool : list mempool.MempoolTx) : Loop :=
  {| rawMempool := pool; next := None; pc := WaitTxs |}.

Fixpoint run (envs : list Env) (l : Loop) : Loop * list Event :=
  match envs with
  | [] => (l, [])
  | env :: envs' =>
      let '(l1, t1) := step env l in
      let '(l2, t2) := run envs' l1 in
      (l2, (t1 ++ t2)%list)
  end.

(** The first [k] steps under the inputs [envs 0], [envs 1], ... *)
Definition run_n (envs : nat -> Env) (k : nat) (l : Loop) : Loop * list Event :=
  run (map envs (seq 0 k)) l.

(** The number of entries the loop has gossiped and gone past. *)
Definition passed (l : Loop) : nat :=
  match pc l, next l with
  | Send, Some e => e
  | WaitNext, Some e => S e
  | _, _ => 0%nat
  end.

(** The loop is at one of its three points with its cursor, when it has
    one, on an entry of the pool. *)
Definition at_work (l : Loop) : Prop :=
  match pc l, next l with
  | WaitTxs, None => True
  | Send, Some e | WaitNext, Some e => (e < length (rawMempool l))%nat
  | _, _ => False
  end.

(** Every entry the loop has gone past was gossiped without error. *)
Definition gossiped (l : Loop) (t : list Event) : Prop :=
  forall j m, (j < passed l)%nat -> rawMempool l !! j = Some m ->
    In (GossipTx (mempool.tx m) None) t.

(** The transactions gossiped without error, in the order of the calls. *)
Definition sent (t : list Event) : list types.Tx :=
  omap (fun ev => match ev with
                  | GossipTx tx None => Some tx
                  | GossipTx _ (Some _) => None
                  end) t.

(** What was sent is the pool up to the cursor, or, once the loop has
    returned, up to some entry. *)
Definition orderly (l : Loop) (t : list Event) : Prop :=
  (at_work l /\ sent t = map mempool.tx (take (passed l) (rawMempool l))) \/
  (pc l = Returned /\
   exists c, (c <= length (rawMempool l))%nat /\
             sent t = map mempool.tx (take c (rawMempool l))).

End publish.

(** ** [mempoolReadLoop]: the ingestion loop as a step machine

    A step is one pass through the [select]. The peer-id table behind
    [n.mempoolIDs] is not among the sources; its one method used here is a
    method of a class. *)
Module ingest.

Class PeerIDs (I : Type) := { GetForPeer : string -> I -> I * Z }.

(** The input of a step. *)
Record Env := {
  (** a sender is waiting on [incomingTxCh] with this transaction *)
  incoming : option p2p.Tx;
  (** [ctx.Done()] is closed *)
  Done : bool;
  (** with both cases ready: [ctx.Done()] is the one chosen *)
  pick_Done : bool
}.

Inductive PC := Select | Returned.

Record Loop (M I : Type) := {
  Mempool : M;
  mempoolIDs : I;
  pc : PC
}.
Arguments Mempool {M I} _.
Arguments mempoolIDs {M I} _.
Arguments pc {M I} _.

Inductive Event :=
  CheckTx (tx : types.Tx) (info : mempool.TxInfo) (err : option error).

Section Step.
Context {M I : Type} `{!mempool.Mempool M} `{!PeerIDs I}.

Definition step (env : Env) (l : Loop M I) : Loop M I * list Event :=
  match pc l with
  | Returned => (l, [])
  | Select =>
      match incoming env with
      | None =>
          if Done env
          then ({| Mempool := Mempool l; mempoolIDs := mempoolIDs l; pc := Returned |}, [])
          else (l, [])
      | Some tx =>
          if Done env && pick_Done env
          then ({| Mempool := Mempool l; mempoolIDs := mempoolIDs l; pc := Returned |}, [])
          else
            let '(ids, id) := GetForPeer (p2p.From tx) (mempoolIDs l) in
            let info := {| mempool.SenderID := id; mempool.SenderP2PID := p2p.From tx |} in
            let '(m, err) := mempool.CheckTx (p2p.Data tx) info (Mempool l) in
            ({| Mempool := m; mempoolIDs := ids; pc := Select |},
             [CheckTx (p2p.Data tx) info err])
      end
  end.

Fixpoint run (envs : list Env) (l : Loop M I) : Loop M I * list Event :=
  match envs with
  | [] => (l, [])
  | env :: envs' =>
      let '(l1, t1) := step env l in
      let '(l2, t2) := run envs' l1 in
      (l2, (t1 ++ t2)%list)
  end.

End Step.

(** The transactions a list of inputs offers to a loop that takes them all. *)
Definition offered (envs : list Env) : list types.Tx :=
  omap (fun env => p2p.Data <$> incoming env) envs.

Definition checked (t : list Event) : list types.Tx :=
  map (fun ev => match ev with CheckTx tx _ _ => tx end) t.

End ingest.

(** ** [aggregationLoop]: the block production loop as a step machine

    [time.NewTicker] panics for an interval that is not positive; after that
    a step is one pass through the [select]. *)
Module aggregate.

Record Env := {
  (** the ticker has fired; the clock reads this when the block is made *)
  tick : option Z;
  (** [ctx.Done()] is closed *)
  Done : bool;
  (** with both cases ready: [ctx.Done()] is the one chosen *)
  pick_Done : bool
}.

Inductive PC := Select | Returned | Panicked.

Section Step.
Context {S M D P A E G : Type}.
Context `{!store.Store S} `{!mempool.Mempool M}
        `{!da.DataAvailabilityLayerClient D} `{!p2p.Client P}.
Context `{!types.Hashable types.Header} `{!types.Hashable types.Data}.

#[local] Abbreviation Node := (node.Node S M D P A E G).

(** [tick := time.NewTicker(n.conf.BlockTime)] *)
Definition start (n : Node) : PC :=
  if config.BlockTime (node.conf n) <=? 0 then Panicked else Select.

Definition step (env : Env) (st : Node * PC) : Node * PC * list node.Event :=
  let '(n, pc) := st in
  match pc with
  | Returned | Panicked => (n, pc, [])
  | Select =>
      match tick env with
      | None => if Done env then (n, Returned, []) else (n, Select, [])
      | Some now =>
          if Done env && pick_Done env then (n, Returned, [])
          else
            let '(_, n', calls) := node.publishBlock now n in
            (n', Select, calls)
      end
  end.

(** The steps of the loop, one per entry: the input of the step and the
    pool as the other goroutines have left it by then. *)
Fixpoint run (envs : list (Env * M)) (st : Node * PC) : Node * PC * list node.Event :=
  match envs with
  | [] => (st, [])
  | (env, pool) :: envs' =>
      let '(st1, t1) := step env (node.set_Mempool pool (fst st), snd st) in
      let '(st2, t2) := run envs' st1 in
      (st2, (t1 ++ t2)%list)
  end.

End Step.

End aggregate.

(** ** Submissions to a DA client *)
Module session.

Section Client.
Context {D : Type} `{!da.DataAvailabilityLayerClient D}.

(** The blocks submitted one after the other, with the results. *)
Fixpoint submit_all (blocks : list types.Block) (d : D) : D * list da.ResultSubmitBlock :=
  match blocks with
  | [] => (d, [])
  | b :: blocks' =>
      let '(d1, r) := da.SubmitBlock b d in
      let '(d2, rs) := submit_all blocks' d1 in
      (d2, r :: rs)
  end.

End Client.

End session.

(** ** Test doubles

    Small stand-ins for the collaborators whose code is outside the
    sources, used to run the orchestrator on concrete inputs. They are not
    models of the real collaborators. *)
Module testing.

(** A stand-in digest: 32 bytes, the first one read off the value. *)
Definition digest (n : Z) : bytes :=
  match Byte.of_N (Z.to_N (n mod 256)) with
  | Some b => b :: zero_bytes 31
  | None => zero_bytes 32
  end.

#[global] Instance Hash_Header : types.Hashable types.Header :=
  {| types.Hash := fun h => Ok (digest (types.Height h)) |}.

#[global] Instance Hash_Data : types.Hashable types.Data :=
  {| types.Hash := fun d => Ok (digest (Z.of_nat (length (types.Data_Txs d)))) |}.

(** A network client that starts and closes without error. *)
Record Net := { started : bool; handler : option p2p.TxHandler }.

#[global] Instance Net_Client : p2p.Client Net := {|
  p2p.NewClient := fun _ nodeKey _ =>
    match nodeKey with
    | None => Err "private key is nil"
    | Some _ => Ok {| started := false; handler := None |}
    end;
  p2p.Start := fun p => ({| started := true; handler := handler p |}, None);
  p2p.Close := fun p => ({| started := false; handler := handler p |}, None);
  p2p.SetTxHandler := fun h p => {| started := started p; handler := Some h |}
|}.

(** Application connections whose start answers what the client creator
    carries: [None] for a reachable application, an error otherwise. *)
#[global] Instance App : proxy.AppConns (option error) (option error) := {|
  proxy.NewAppConns := fun c => c;
  proxy.Start := fun a => (a, a)
|}.

#[global] Instance Bus : proxy.EventBus unit := {|
  proxy.NewEventBus := tt;
  proxy.EventBus_Start := fun e => (e, None)
|}.

(** A registry with the mock backend only. *)
#[global] Instance Backends : registry.Registry mock.MockDataAvailabilityLayerClient :=
  {| registry.clients := {[ "mock" := {| mock.Blocks := [] |} ]} |}.

(** A validator library: a validator is its key, power and priority, a set
    is a list, one increment round adds the power to the priority, and
    incrementing an empty set panics. *)
Record Validator := { key : bytes; power : Z; priority : Z }.

Definition increment (times : Z) (v : Validator) : Validator :=
  {| key := key v; power := power v; priority := priority v + times * power v |}.

#[global] Instance Lib : lltypes.Core Z Validator (list Validator) := {|
  lltypes.BlockProtocol := 11;
  lltypes.TMCoreSemVer := "0.34.0";
  lltypes.ValidateAndComplete := fun g =>
    if String.eqb (lltypes.ChainID g) "" then
      Err "genesis doc must include non-empty chain_id"
    else
      Ok {| lltypes.GenesisTime := lltypes.GenesisTime g;
            lltypes.ChainID := lltypes.ChainID g;
            lltypes.InitialHeight :=
              if lltypes.InitialHeight g =? 0 then 1 else lltypes.InitialHeight g;
            lltypes.ConsensusParams :=
              match lltypes.ConsensusParams g with
              | None => Some 22020096
              | Some p => Some p
              end;
            lltypes.Validators := lltypes.Validators g;
            lltypes.AppHash := lltypes.AppHash g |};
  lltypes.NewValidator := fun k p => {| key := k; power := p; priority := 0 |};
  lltypes.NewValidatorSet := fun l => Return l;
  lltypes.CopyIncrementProposerPriority := fun times s =>
    match s with
    | [] => Panic "empty validator set"
    | _ :: _ => Return (map (increment times) s)
    end;
  lltypes.Size := fun s => length s
|}.

Definition hello : types.Tx := list_byte_of_string "hello".

Definition header (h : Z) : types.Header := {|
  types.Header_Version := {| types.Version_Block := 0; types.Version_App := 0 |};
  types.NamespaceID := zero_bytes 8;
  types.Height := h;
  types.Time := 0;
  types.LastHeaderHash := zero_bytes 32;
  types.LastCommitHash := zero_bytes 32;
  types.DataHash := zero_bytes 32;
  types.ConsensusHash := zero_bytes 32;
  types.AppHash := zero_bytes 32;
  types.LastResultsHash := zero_bytes 32;
  types.ProposerAddress := []
|}.

Definition block (h : Z) : types.Block := {|
  types.Block_Header := header h;
  types.Block_Data := {|
    types.Data_Txs := [];
    types.Data_IntermediateStateRoots := {| types.RawRootsList := [] |};
    types.Data_Evidence := {| types.Evidence := [] |}
  |}
|}.

Definition nodeConfig (aggregator : bool) (daLayer : string) : config.NodeConfig := {|
  config.P2P := {| config.ListenAddress := ""; config.Seeds := "" |};
  config.Aggregator := aggregator;
  config.BlockTime := 1000000000;
  config.DALayer := daLayer;
  config.DAConfig := []
|}.

Definition genesisDoc : lltypes.GenesisDoc Z := {|
  lltypes.GenesisTime := 0;
  lltypes.ChainID := "test";
  lltypes.InitialHeight := 0;
  lltypes.ConsensusParams := None;
  lltypes.Validators :=
    Some [ {| lltypes.Address := []; lltypes.PubKey := [Byte.x01];
              lltypes.Power := 10; lltypes.Name := "a" |};
           {| lltypes.Address := []; lltypes.PubKey := [Byte.x02];
              lltypes.Power := 5; lltypes.Name := "b" |} ];
  lltypes.AppHash := [Byte.xaa]
|}.

Abbreviation TestNode :=
  (node.Node store.DefaultBlockStore mempool.CListMempool
             mock.MockDataAvailabilityLayerClient Net (option error) unit
             (lltypes.GenesisDoc Z)).

(** A node with the given store and pool, the mock DA client and the
    network stand-in. *)
Definition testNode (aggregator : bool) (bs : store.DefaultBlockStore)
    (pool : mempool.CListMempool) : TestNode := {|
  node.eventBus := tt;
  node.proxyApp := None;
  node.genesis := genesisDoc;
  node.conf := nodeConfig aggregator "mock";
  node.P2P := {| started := false; handler := None |};
  node.Mempool := pool;
  node.BlockStore := bs;
  node.dalc := {| mock.Blocks := [] |}
|}.

(** The pool after peer [P] sent ["hello"]. *)
Definition pool_hello : mempool.CListMempool :=
  fst (mempool.CheckTx hello {| mempool.SenderID := 1; mempool.SenderP2PID := "P" |}
         mempool.NewCListMempool).

(** A store holding one block, at height 1. *)
Definition store_1 : store.DefaultBlockStore :=
  fst (store.SaveBlock (block 1) store.NewBlockStore).

(** Steps of the gossip loop: the network refuses the first three calls
    and accepts the later ones; ["hello"] enters the pool before the first
    step; the context is never done. *)
Definition flaky_inputs (k : nat) : publish.Env := {|
  publish.admitted := if (k =? 0)%nat then mempool.txs pool_hello else [];
  publish.Done := false;
  publish.pick_Done := false;
  publish.GossipTx_err := if (k <? 3)%nat then Some "no peers" else None
|}.

(** A step with the context done and the network refusing the call. *)
Definition network_down : publish.Env := {|
  publish.admitted := [];
  publish.Done := true;
  publish.pick_Done := true;
  publish.GossipTx_err := Some "no peers"
|}.

(** The gossip loop of a node whose pool holds ["hello"], after its first
    step: at the head of the inner loop with the cursor on ["hello"]. *)
Definition sending_hello : publish.Loop :=
  fst (publish.step (flaky_inputs 1) (publish.start (mempool.txs pool_hello))).

End testing.

(** ** Test doubles that fail *)
Module faults.

(** A digest of headers that cannot be computed. *)
Definition no_Hash_Header : types.Hashable types.Header :=
  {| types.Hash := fun _ => Err "marshal error" |}.

(** A digest of block data that cannot be computed. *)
Definition no_Hash_Data : types.Hashable types.Data :=
  {| types.Hash := fun _ => Err "marshal error" |}.

(** A store that loads but cannot save. *)
Record FullStore := { content : store.DefaultBlockStore }.

#[global] Instance FullStore_Store : store.Store FullStore := {|
  store.Height := fun s => store.Height (content s);
  store.SaveBlock := fun b s => (s, Some "disk full");
  store.LoadBlock := fun h s => store.LoadBlock h (content s)
|}.

(** A network client and a DA client that answer with the errors they carry. *)
Record Net := { start_err : option error; close_err : option error }.

#[global] Instance Net_Client : p2p.Client Net := {|
  p2p.NewClient := fun _ nodeKey _ =>
    match nodeKey with
    | None => Err "private key is nil"
    | Some _ => Ok {| start_err := None; close_err := None |}
    end;
  p2p.Start := fun p => (p, start_err p);
  p2p.Close := fun p => (p, close_err p);
  p2p.SetTxHandler := fun _ p => p
|}.

Record DA := {
  init_err : option error;
  da_start_err : option error;
  stop_err : option error;
  submitted : list types.Block
}.

#[global] Instance DA_Client : da.DataAvailabilityLayerClient DA := {|
  da.Init := fun _ d => (d, init_err d);
  da.Start := fun d => (d, da_start_err d);
  da.Stop := fun d => (d, stop_err d);
  da.SubmitBlock := fun b d =>
    ({| init_err := init_err d; da_start_err := da_start_err d; stop_err := stop_err d;
        submitted := (submitted d ++ [b])%list |},
     {| da.Code := da.StatusError; da.Message := "unavailable" |})
|}.

(** A registry whose one backend refuses its configuration. *)
#[global] Instance Backends : registry.Registry DA :=
  {| registry.clients :=
       {[ "strict" := {| init_err := Some "bad config"; da_start_err := None;
                         stop_err := None; submitted := [] |} ]} |}.

(** A pool that refuses empty transactions. *)
Record PickyPool := { accepted : list types.Tx }.

#[global] Instance PickyPool_Mempool : mempool.Mempool PickyPool := {|
  mempool.CheckTx := fun t _ m =>
    match t with
    | [] => (m, Some "tx is empty")
    | _ :: _ => ({| accepted := (accepted m ++ [t])%list |}, None)
    end;
  mempool.ReapMaxBytesMaxGas := fun _ _ m => accepted m
|}.

(** Peer ids handed out in order of first appearance. *)
#[global] Instance Ids : ingest.PeerIDs (list string) := {|
  ingest.GetForPeer := fun peer ids =>
    match list_find (String.eqb peer) ids with
    | Some (i, _) => (ids, Z.of_nat i)
    | None => ((ids ++ [peer])%list, Z.of_nat (length ids))
    end
|}.

Abbreviation FaultyNode :=
  (node.Node FullStore mempool.CListMempool DA Net (option error) unit
             (lltypes.GenesisDoc Z)).

Definition faultyNode (p2pStart daStart daStop p2pClose : option error) : FaultyNode := {|
  node.eventBus := tt;
  node.proxyApp := None;
  node.genesis := testing.genesisDoc;
  node.conf := testing.nodeConfig true "strict";
  node.P2P := {| start_err := p2pStart; close_err := p2pClose |};
  node.Mempool := testing.pool_hello;
  node.BlockStore := {| content := testing.store_1 |};
  node.dalc := {| init_err := None; da_start_err := daStart; stop_err := daStop;
                  submitted := [] |}
|}.

(** A genesis document with a list of validators that is empty but not nil. *)
Definition genesisDoc_no_validators : lltypes.GenesisDoc Z := {|
  lltypes.GenesisTime := 0;
  lltypes.ChainID := "test";
  lltypes.InitialHeight := 1;
  lltypes.ConsensusParams := None;
  lltypes.Validators := Some [];
  lltypes.AppHash := []
|}.

End faults.

(** * Properties *)

(** ** Block production: [makeBlock] and [publishBlock] *)
Section BlockProduction.
Context {S M D P A E G : Type}.
Context `{!store.Store S} `{!mempool.Mempool M}
        `{!da.DataAvailabilityLayerClient D} `{!p2p.Client P}.
Context `{!types.Hashable types.Header} `{!types.Hashable types.Data}.

#[local] Abbreviation Node := (node.Node S M D P A E G).

Implicit Types (n : Node) (now height : Z) (txs : types.Txs).

Lemma wrap64_small z : 0 <= z < 2 ^ 64 -> wrap64 z = z.
Proof. intros Hz. unfold wrap64. apply Z.mod_small. exact Hz. Qed.

Lemma length_eqb_0 {X} (l : list X) : (length l =? 0)%nat = true <-> l = [].
Proof.
  destruct l as [|x l]; simpl; split; intros Hl; try reflexivity; discriminate.
Qed.

(** [makeBlock] reads the store once and changes nothing. *)
Lemma makeBlock_frame n now height txs :
  snd (fst (node.makeBlock now height txs n)) = n /\
  snd (node.makeBlock now height txs n)
    = [node.BlockStore_LoadBlock (wrap64 (height - 1))].
Proof.
  unfold node.makeBlock, node.bind, node.call_LoadBlock.
  destruct (store.LoadBlock (wrap64 (height - 1)) (node.BlockStore n)) as [lastBlock|e];
    [|split; reflexivity].
  destruct (types.Hash (types.Block_Header lastBlock)) as [lastHash|e];
    [|split; reflexivity].
  match goal with
  | |- context [types.Hash ?d] => destruct (types.Hash d)
  end; split; reflexivity.
Qed.

Lemma makeBlock_eq n now height txs :
  node.makeBlock now height txs n
  = (fst (fst (node.makeBlock now height txs n)), n,
     [node.BlockStore_LoadBlock (wrap64 (height - 1))]).
Proof.
  destruct (makeBlock_frame n now height txs) as [Hn Ht].
  destruct (node.makeBlock now height txs n) as [[r n'] t]; simpl in *.
  subst. reflexivity.
Qed.

(** An error of the load is the error of [makeBlock]. *)
Lemma makeBlock_load_error n now height txs e :
  store.LoadBlock (wrap64 (height - 1)) (node.BlockStore n) = Err e ->
  fst (fst (node.makeBlock now height txs n)) = Err e.
Proof.
  intros Hload. unfold node.makeBlock, node.bind, node.call_LoadBlock.
  rewrite Hload. reflexivity.
Qed.

(** [publishBlock] when the block cannot be made. *)
Lemma publishBlock_makeBlock_error n now e :
  mempool.ReapMaxBytesMaxGas (32 * 1024) (-1) (node.Mempool n) <> [] ->
  store.LoadBlock (wrap64 (wrap64 (store.Height (node.BlockStore n) + 1) - 1))
    (node.BlockStore n) = Err e ->
  node.publishBlock now n
  = (Some e, n,
     [node.Mempool_ReapMaxBytesMaxGas (32 * 1024) (-1);
      node.BlockStore_Height;
      node.BlockStore_LoadBlock
        (wrap64 (wrap64 (store.Height (node.BlockStore n) + 1) - 1))]).
Proof.
  intros Hreap Hload.
  unfold node.publishBlock, node.bind at 1, node.call_Reap.
  destruct (length _ =? 0)%nat eqn:Hlen.
  { apply length_eqb_0 in Hlen. contradiction. }
  unfold node.bind at 1, node.call_Height.
  unfold node.bind at 1.
  rewrite makeBlock_eq, (makeBlock_load_error _ _ _ _ _ Hload).
  reflexivity.
Qed.

(** [publishBlock] with nothing reaped. *)
Lemma publishBlock_nothing_reaped n now :
  mempool.ReapMaxBytesMaxGas (32 * 1024) (-1) (node.Mempool n) = [] ->
  node.publishBlock now n
  = (None, n, [node.Mempool_ReapMaxBytesMaxGas (32 * 1024) (-1)]).
Proof.
  intros Hreap.
  unfold node.publishBlock, node.bind, node.call_Reap.
  rewrite Hreap. reflexivity.
Qed.

(** C3. On a tick with an empty mempool ([ReapMaxBytesMaxGas] returns no
    transaction) [publishBlock] returns nil, calls nothing but the reap, and
    leaves the node as it was: no block is saved and the height of the
    block store is unchanged. *)
Theorem publishBlock_empty_mempool n now :
  mempool.ReapMaxBytesMaxGas (32 * 1024) (-1) (node.Mempool n) = [] ->
  exists n' calls,
    node.publishBlock now n = (None, n', calls) /\
    n' = n /\
    store.Height (node.BlockStore n') = store.Height (node.BlockStore n) /\
    (forall b, ~ In (node.BlockStore_SaveBlock b) calls).
Proof.
  intros Hreap. exists n, [node.Mempool_ReapMaxBytesMaxGas (32 * 1024) (-1)].
  split; [apply publishBlock_nothing_reaped; exact Hreap|].
  split; [reflexivity|]. split; [reflexivity|].
  intros b [Hb|[]]. discriminate Hb.
Qed.

(** C4. For a target height [1 <= H < 2^64], [makeBlock] fails with the
    store's error when block [H-1] cannot be loaded; when it is loaded and
    the two digests are computed, [makeBlock] returns a block whose header
    has height [H], the digest of the header of block [H-1] as
    [LastHeaderHash], zero [LastCommitHash], [ConsensusHash], [AppHash] and
    [LastResultsHash], an empty proposer address, and the digest of the
    block's data, built from the transactions with empty state roots and
    evidence, as [DataHash]. *)
Theorem makeBlock_spec n now h txs :
  1 <= h < 2 ^ 64 ->
  match store.LoadBlock (h - 1) (node.BlockStore n) with
  | Err e => fst (fst (node.makeBlock now h txs n)) = Err e
  | Ok lastBlock =>
      forall lastHash dataHash,
        types.Hash (types.Block_Header lastBlock) = Ok lastHash ->
        types.Hash {| types.Data_Txs := txs;
                      types.Data_IntermediateStateRoots := {| types.RawRootsList := [] |};
                      types.Data_Evidence := {| types.Evidence := [] |} |}
          = Ok dataHash ->
        exists block,
          fst (fst (node.makeBlock now h txs n)) = Ok block /\
          types.Height (types.Block_Header block) = h /\
          types.LastHeaderHash (types.Block_Header block) = lastHash /\
          types.LastCommitHash (types.Block_Header block) = zero_bytes 32 /\
          types.ConsensusHash (types.Block_Header block) = zero_bytes 32 /\
          types.AppHash (types.Block_Header block) = zero_bytes 32 /\
          types.LastResultsHash (types.Block_Header block) = zero_bytes 32 /\
          types.ProposerAddress (types.Block_Header block) = [] /\
          types.Data_Txs (types.Block_Data block) = txs /\
          types.Hash (types.Block_Data block) = Ok dataHash /\
          types.DataHash (types.Block_Header block) = dataHash
  end.
Proof.
  intros Hh.
  assert (Hw : wrap64 (h - 1) = h - 1) by (apply wrap64_small; lia).
  destruct (store.LoadBlock (h - 1) (node.BlockStore n)) as [lastBlock|e] eqn:Hload.
  - intros lastHash dataHash Hlast Hdata.
    unfold node.makeBlock, node.bind, node.call_LoadBlock.
    rewrite Hw, Hload, Hlast. cbn [types.Block_Data]. rewrite Hdata.
    eexists. split; [reflexivity|]. cbn.
    repeat split; try reflexivity. exact Hdata.
  - apply makeBlock_load_error. rewrite Hw. exact Hload.
Qed.

(** C1 (amended). On a tick with a non-empty reaped batch for which
    [makeBlock] succeeds and the store saves, [publishBlock] reaps, reads
    the height, loads the previous block, saves the new block and returns
    the nil of [broadcastBlock]: it makes no call on the DA client, whose
    state is unchanged. *)
Theorem publishBlock_saves_without_submitting n now txs block s' :
  mempool.ReapMaxBytesMaxGas (32 * 1024) (-1) (node.Mempool n) = txs ->
  txs <> [] ->
  fst (fst (node.makeBlock now (wrap64 (store.Height (node.BlockStore n) + 1)) txs n))
    = Ok block ->
  store.SaveBlock block (node.BlockStore n) = (s', None) ->
  exists n' calls,
    node.publishBlock now n = (None, n', calls) /\
    node.BlockStore n' = s' /\
    calls = [node.Mempool_ReapMaxBytesMaxGas (32 * 1024) (-1);
             node.BlockStore_Height;
             node.BlockStore_LoadBlock
               (wrap64 (wrap64 (store.Height (node.BlockStore n) + 1) - 1));
             node.BlockStore_SaveBlock block] /\
    forallb (fun e => negb (node.is_dalc_call e)) calls = true /\
    node.dalc n' = node.dalc n.
Proof.
  intros Hreap Hne Hmake Hsave.
  exists (node.set_BlockStore s' n). eexists.
  split.
  - unfold node.publishBlock, node.bind at 1, node.call_Reap.
    rewrite Hreap.
    destruct (length txs =? 0)%nat eqn:Hlen.
    { apply length_eqb_0 in Hlen. contradiction. }
    unfold node.bind at 1, node.call_Height.
    unfold node.bind at 1.
    rewrite makeBlock_eq, Hmake.
    unfold node.bind, node.call_SaveBlock. rewrite Hsave.
    unfold node.broadcastBlock, node.ret. simpl. reflexivity.
  - repeat split; reflexivity.
Qed.

End BlockProduction.

(** ** Block production from an empty store *)
Section EmptyStore.
Context {M D P A E G : Type}.
Context `{!mempool.Mempool M} `{!da.DataAvailabilityLayerClient D} `{!p2p.Client P}.
Context `{!types.Hashable types.Header} `{!types.Hashable types.Data}.

#[local] Abbreviation NodeOnStore := (node.Node store.DefaultBlockStore M D P A E G).

Implicit Types (n : NodeOnStore) (now : Z).

Lemma NewBlockStore_LoadBlock h :
  store.LoadBlock h store.NewBlockStore = Err "block not found".
Proof.
  cbn. unfold store.DefaultBlockStore_LoadBlock. cbn [store.blocks store.NewBlockStore].
  rewrite lookup_empty. reflexivity.
Qed.

(** One [publishBlock] on an empty store leaves the node as it was. *)
Lemma publishBlock_keeps_empty_store n now :
  node.BlockStore n = store.NewBlockStore ->
  snd (fst (node.publishBlock now n)) = n.
Proof.
  intros Hempty.
  destruct (mempool.ReapMaxBytesMaxGas (32 * 1024) (-1) (node.Mempool n)) as [|t txs] eqn:Hreap.
  - rewrite publishBlock_nothing_reaped by exact Hreap. reflexivity.
  - rewrite (publishBlock_makeBlock_error n now "block not found").
    + reflexivity.
    + rewrite Hreap. discriminate.
    + rewrite Hempty. apply NewBlockStore_LoadBlock.
Qed.

Lemma aggregation_ticks_keep_empty_store (ticks : list (Z * M)) n :
  node.BlockStore n = store.NewBlockStore ->
  node.BlockStore (snd (fst (node.aggregation_ticks ticks n))) = store.NewBlockStore.
Proof.
  revert n. induction ticks as [|[now pool] ticks IH]; intros n Hempty.
  - exact Hempty.
  - cbn [node.aggregation_ticks]. unfold node.bind at 1. cbn beta iota.
    unfold node.bind at 1, node.aggregation_tick.
    unfold node.bind at 1.
    pose proof (publishBlock_keeps_empty_store (node.set_Mempool pool n) now Hempty) as Hkeep.
    destruct (node.publishBlock now (node.set_Mempool pool n)) as [[err n1] t1].
    cbn in Hkeep. subst n1. unfold node.ret. cbn beta iota.
    specialize (IH (node.set_Mempool pool n) Hempty).
    destruct (node.aggregation_ticks ticks (node.set_Mempool pool n)) as [[u n2] t2].
    exact IH.
Qed.

(** C10. On an empty block store ([Height()] is 0) with a non-empty reap,
    [publishBlock] asks [makeBlock] for height 1, the load of block 0 fails,
    and [publishBlock] returns that error with the node unchanged and nothing
    saved; whatever the pool holds at each tick, the store is still empty
    after any number of ticks of the aggregation loop. *)
Theorem publishBlock_empty_store n now :
  node.BlockStore n = store.NewBlockStore ->
  mempool.ReapMaxBytesMaxGas (32 * 1024) (-1) (node.Mempool n) <> [] ->
  store.Height (node.BlockStore n) = 0 /\
  node.publishBlock now n
  = (Some "block not found", n,
     [node.Mempool_ReapMaxBytesMaxGas (32 * 1024) (-1);
      node.BlockStore_Height;
      node.BlockStore_LoadBlock 0]) /\
  forall ticks : list (Z * M),
    node.BlockStore (snd (fst (node.aggregation_ticks ticks n))) = store.NewBlockStore.
Proof.
  intros Hempty Hreap.
  split; [rewrite Hempty; reflexivity|]. split.
  - rewrite (publishBlock_makeBlock_error n now "block not found" Hreap).
    + rewrite Hempty. reflexivity.
    + rewrite Hempty. apply NewBlockStore_LoadBlock.
  - intros ticks. apply aggregation_ticks_keep_empty_store. exact Hempty.
Qed.

End EmptyStore.

(** ** Startup: [OnStart] *)
Section Startup.
Context {S M D P A E G : Type}.
Context `{!store.Store S} `{!mempool.Mempool M}
        `{!da.DataAvailabilityLayerClient D} `{!p2p.Client P}.

Implicit Types (n : node.Node S M D P A E G).

(** C2 (amended). When [OnStart] returns nil it has started the network
    client and the DA client, launched the ingestion loop and the gossip
    loop, launched the aggregation loop when and only when the node is
    configured as an aggregator, and then installed the ingestion callback,
    in this order. *)
Theorem OnStart_launches n :
  fst (fst (node.OnStart n)) = None ->
  snd (node.OnStart n)
  = ([node.P2P_Start; node.dalc_Start;
      node.go_ node.go_mempoolReadLoop;
      node.go_ node.go_mempoolPublishLoop]
     ++ (if config.Aggregator (node.conf n)
         then [node.go_ node.go_aggregationLoop] else [])
     ++ [node.P2P_SetTxHandler p2p.SendOn_incomingTxCh])%list.
Proof.
  unfold node.OnStart, node.bind, node.call_P2P_Start, node.call_dalc_Start,
    node.spawn, node.get_conf, node.call_P2P_SetTxHandler, node.ret.
  destruct (p2p.Start (node.P2P n)) as [p [e|]]; [discriminate|].
  cbn [node.dalc node.set_P2P].
  destruct (da.Start (node.dalc n)) as [d [e|]]; [discriminate|].
  intros _. cbn [node.conf node.set_dalc node.set_P2P].
  destruct (config.Aggregator (node.conf n)); reflexivity.
Qed.

End Startup.

(** ** Construction: [NewNode] and the registry *)
Section Construction.
Context {D P A E C CP : Type}.
Context `{!da.DataAvailabilityLayerClient D} `{!p2p.Client P}
        `{!proxy.AppConns C A} `{!proxy.EventBus E} `{!registry.Registry D}.

Implicit Types (conf : config.NodeConfig) (nodeKey : option bytes)
  (clientCreator : C) (genesis : lltypes.GenesisDoc CP).

(** C7. For a configuration naming a DA backend that is not in the
    registry, [GetClient] returns nil, and [NewNode] treats the nil as
    fatal: whenever it makes the lookup it returns no node but the error
    naming the backend, having called nothing on a DA client. The lookup is
    made when the three steps before it succeed; a failure of one of them is
    returned before the lookup, as the error of that step (the one of the
    application connections behind its prefix). In every case the result is
    an error and no DA client is called. *)
Theorem NewNode_unknown_backend conf nodeKey clientCreator genesis :
  registry.clients !! config.DALayer conf = None ->
  registry.GetClient (config.DALayer conf) = None /\
  node.NewNode (A:=A) (E:=E) (P:=P) conf nodeKey clientCreator genesis
  = match snd (proxy.Start (proxy.NewAppConns clientCreator)) with
    | Some e =>
        (Err ("error starting proxy app connections: " +:+ e), [node.proxyApp_Start])
    | None =>
        match snd (proxy.EventBus_Start (E:=E) proxy.NewEventBus) with
        | Some e => (Err e, [node.proxyApp_Start; node.eventBus_Start])
        | None =>
            match p2p.NewClient (P:=P) (config.P2P conf) nodeKey (lltypes.ChainID genesis) with
            | Err e =>
                (Err e, [node.proxyApp_Start; node.eventBus_Start; node.p2p_NewClient])
            | Ok _ =>
                (Err ("couldn't get data availability client named '"
                      +:+ config.DALayer conf +:+ "'"),
                 [node.proxyApp_Start; node.eventBus_Start; node.p2p_NewClient;
                  node.registry_GetClient (config.DALayer conf)])
            end
        end
    end /\
  (In (node.registry_GetClient (config.DALayer conf))
      (snd (node.NewNode (A:=A) (E:=E) (P:=P) conf nodeKey clientCreator genesis)) ->
   node.NewNode (A:=A) (E:=E) (P:=P) conf nodeKey clientCreator genesis
   = (Err ("couldn't get data availability client named '"
           +:+ config.DALayer conf +:+ "'"),
      [node.proxyApp_Start; node.eventBus_Start; node.p2p_NewClient;
       node.registry_GetClient (config.DALayer conf)])) /\
  (exists e, fst (node.NewNode (A:=A) (E:=E) (P:=P) conf nodeKey clientCreator genesis) = Err e) /\
  forallb (fun e => negb (node.is_dalc_call e))
    (snd (node.NewNode (A:=A) (E:=E) (P:=P) conf nodeKey clientCreator genesis)) = true /\
  forall (proxyApp : A) (eventBus : E) (client : P),
    proxy.Start (proxy.NewAppConns clientCreator) = (proxyApp, None) ->
    proxy.EventBus_Start proxy.NewEventBus = (eventBus, None) ->
    p2p.NewClient (config.P2P conf) nodeKey (lltypes.ChainID genesis) = Ok client ->
    node.NewNode (A:=A) (E:=E) (P:=P) conf nodeKey clientCreator genesis
    = (Err ("couldn't get data availability client named '"
            +:+ config.DALayer conf +:+ "'"),
       [node.proxyApp_Start; node.eventBus_Start; node.p2p_NewClient;
        node.registry_GetClient (config.DALayer conf)]).
Proof.
  intros Hunknown.
  assert (Hget : registry.GetClient (config.DALayer conf) = None) by exact Hunknown.
  split; [exact Hget|].
  unfold node.NewNode, node.after, node.logged. rewrite Hget.
  destruct (proxy.Start (proxy.NewAppConns clientCreator)) as [a [e|]]; cbn [snd].
  { split; [reflexivity|]. split.
    - cbn. intros [Hin|[]]. discriminate Hin.
    - split; [eexists; reflexivity|]. split; [reflexivity|]. intros ? ? ? [=]. }
  destruct (proxy.EventBus_Start proxy.NewEventBus) as [b [e|]]; cbn [snd].
  { split; [reflexivity|]. split.
    - cbn. intros [Hin|[Hin|[]]]; discriminate Hin.
    - split; [eexists; reflexivity|]. split; [reflexivity|]. intros ? ? ? _ [=]. }
  destruct (p2p.NewClient (config.P2P conf) nodeKey (lltypes.ChainID genesis)) as [c|e].
  - split; [reflexivity|]. split; [intros _; reflexivity|].
    split; [eexists; reflexivity|]. split; [reflexivity|]. intros; reflexivity.
  - split; [reflexivity|]. split.
    + cbn. intros [Hin|[Hin|[Hin|[]]]]; discriminate Hin.
    + split; [eexists; reflexivity|]. split; [reflexivity|]. intros ? ? ? _ _ [=].
Qed.

End Construction.

(** ** Chain-state seeding: [NewFromGenesisDoc] *)
Section Seeding.
Context {CP V VS : Type} `{!lltypes.Core CP V VS}.

Implicit Types (g : lltypes.GenesisDoc CP) (cur nxt : VS).

(** What the library guarantees of the sets it returns: a new set has one
    member per validator given, and a copy with incremented priorities has
    the members of the original. *)
Hypothesis Size_NewValidatorSet :
  forall (l : list V) (s : VS), lltypes.NewValidatorSet l = Return s ->
    lltypes.Size s = length l.
Hypothesis Size_CopyIncrementProposerPriority :
  forall (times : Z) (s s' : VS),
    lltypes.CopyIncrementProposerPriority times s = Return s' ->
    lltypes.Size s' = lltypes.Size s.

Lemma length_genesis_validators (vals : list lltypes.GenesisValidator) :
  length (state.genesis_validators (V:=V) vals) = length vals.
Proof. unfold state.genesis_validators. apply length_map. Qed.

(** The result of [NewFromGenesisDoc] on a document that validates, when the
    library's constructors return. *)
Lemma NewFromGenesisDoc_returns g g' params sets lastValidators :
  lltypes.ValidateAndComplete g = Ok g' ->
  state.initial_validator_sets g' = Return sets ->
  lltypes.NewValidatorSet [] = Return lastValidators ->
  lltypes.ConsensusParams g' = Some params ->
  state.NewFromGenesisDoc g
  = Return (Ok {|
      state.State_Version := state.InitStateVersion;
      state.State_ChainID := lltypes.ChainID g';
      state.State_InitialHeight := lltypes.InitialHeight g';
      state.LastBlockHeight := 0;
      state.LastBlockID := {| lltypes.BlockID_Hash := [] |};
      state.LastBlockTime := lltypes.GenesisTime g';
      state.NextValidators := snd sets;
      state.Validators := fst sets;
      state.LastValidators := lastValidators;
      state.LastHeightValidatorsChanged := lltypes.InitialHeight g';
      state.State_ConsensusParams := params;
      state.LastHeightConsensusParamsChanged := lltypes.InitialHeight g';
      state.LastResultsHash := [];
      state.State_AppHash := lltypes.AppHash g'
    |}).
Proof.
  intros Hvalid Hsets Hlast Hparams.
  unfold state.NewFromGenesisDoc. rewrite Hvalid, Hsets. cbn [go_bind].
  rewrite Hlast. cbn [go_bind]. rewrite Hparams. reflexivity.
Qed.

(** The two sets [NewFromGenesisDoc] builds, by cases on the validators of
    the document. *)
Lemma initial_validator_sets_inv g cur nxt :
  state.initial_validator_sets g = Return (cur, nxt) ->
  match lltypes.Validators g with
  | None => lltypes.NewValidatorSet [] = Return cur /\ nxt = cur
  | Some vals =>
      lltypes.NewValidatorSet (state.genesis_validators vals) = Return cur /\
      lltypes.CopyIncrementProposerPriority 1 cur = Return nxt
  end.
Proof.
  unfold state.initial_validator_sets.
  destruct (lltypes.Validators g) as [vals|].
  - destruct (lltypes.NewValidatorSet (state.genesis_validators vals)) as [s|msg] eqn:Hnew;
      cbn [go_bind]; [|discriminate].
    destruct (lltypes.CopyIncrementProposerPriority 1 s) as [s'|msg] eqn:Hcopy;
      cbn [go_bind]; [|discriminate].
    intros [= <- <-]. split; [reflexivity|exact Hcopy].
  - destruct (lltypes.NewValidatorSet []) as [s|msg]; cbn [go_bind]; [|discriminate].
    intros [= <- <-]. split; reflexivity.
Qed.

(** The validator sets when the library's constructors return: for a
    genesis document that validates, with [N] configured validators,
    [NewFromGenesisDoc] returns a state whose current validator set is the
    set built from the [N] validators, of size [N], and whose next set is,
    for a non-nil list of validators, the copy of the current set with the
    proposer priority incremented by one round. (On a non-nil empty list the
    increment is applied to the empty set, on which the library panics: see
    [NewFromGenesisDoc_empty_validator_list].) *)
Theorem NewFromGenesisDoc_validator_sets g g' params cur nxt lastValidators :
  lltypes.ValidateAndComplete g = Ok g' ->
  lltypes.ConsensusParams g' = Some params ->
  state.initial_validator_sets g' = Return (cur, nxt) ->
  lltypes.NewValidatorSet [] = Return lastValidators ->
  exists st,
    state.NewFromGenesisDoc g = Return (Ok st) /\
    state.Validators st = cur /\
    state.NextValidators st = nxt /\
    lltypes.Size cur = length (default [] (lltypes.Validators g')) /\
    (forall vals, lltypes.Validators g' = Some vals ->
       lltypes.NewValidatorSet (state.genesis_validators vals) = Return cur /\
       lltypes.CopyIncrementProposerPriority 1 cur = Return nxt) /\
    (length (default [] (lltypes.Validators g')) = 0%nat ->
       lltypes.Size cur = 0%nat /\ lltypes.Size nxt = 0%nat).
Proof.
  intros Hvalid Hparams Hsets Hlast.
  eexists. split.
  { apply (NewFromGenesisDoc_returns g g' params (cur, nxt) lastValidators); assumption. }
  cbn [state.Validators state.NextValidators fst snd].
  split; [reflexivity|]. split; [reflexivity|].
  pose proof (initial_validator_sets_inv g' cur nxt Hsets) as Hinv.
  destruct (lltypes.Validators g') as [vals|]; simpl default.
  - destruct Hinv as [Hcur Hnxt].
    assert (Hsize : lltypes.Size cur = length vals).
    { rewrite (Size_NewValidatorSet _ _ Hcur). apply length_genesis_validators. }
    split; [exact Hsize|]. split.
    + intros vals' [= <-]. split; assumption.
    + intros Hzero. split; [congruence|].
      rewrite (Size_CopyIncrementProposerPriority _ _ _ Hnxt). congruence.
  - destruct Hinv as [Hcur ->].
    assert (Hsize : lltypes.Size cur = 0%nat) by apply (Size_NewValidatorSet _ _ Hcur).
    split; [exact Hsize|]. split; [discriminate|]. intros _. split; exact Hsize.
Qed.

(** C6. For a genesis document that validates, and when the library's
    constructors return, the state [NewFromGenesisDoc] returns has
    [LastBlockHeight] 0, has the initial height of the document as
    [LastHeightValidatorsChanged] and as [LastHeightConsensusParamsChanged],
    and has the consensus parameters and the application hash of the
    document. *)
Theorem NewFromGenesisDoc_fields g g' params sets lastValidators :
  lltypes.ValidateAndComplete g = Ok g' ->
  lltypes.ConsensusParams g' = Some params ->
  state.initial_validator_sets g' = Return sets ->
  lltypes.NewValidatorSet [] = Return lastValidators ->
  exists st,
    state.NewFromGenesisDoc g = Return (Ok st) /\
    state.LastBlockHeight st = 0 /\
    state.LastHeightValidatorsChanged st = lltypes.InitialHeight g' /\
    state.LastHeightConsensusParamsChanged st = lltypes.InitialHeight g' /\
    state.State_ConsensusParams st = params /\
    state.State_AppHash st = lltypes.AppHash g'.
Proof.
  intros Hvalid Hparams Hsets Hlast.
  eexists. split.
  { apply (NewFromGenesisDoc_returns g g' params sets lastValidators); assumption. }
  repeat split; reflexivity.
Qed.

End Seeding.

(** ** [NewFromGenesisDoc] with no validators *)
Section SeedingNoValidators.
Context {CP V VS : Type} `{!lltypes.Core CP V VS}.

Implicit Types (g : lltypes.GenesisDoc CP).

(** C5 (the code on the failing input). The code tells a document without
    validators by [genDoc.Validators == nil]. With a nil list it builds both
    sets from no validators, without incrementing the proposer priority. With
    a list that is empty but not nil it takes the other branch and calls
    [CopyIncrementProposerPriority(1)] on the set built from no validators;
    with a library that panics on incrementing an empty set, as
    lazyledger-core does, [NewFromGenesisDoc] panics instead of returning a
    state with two empty sets. *)
Theorem NewFromGenesisDoc_empty_validator_list g g' empty msg :
  lltypes.ValidateAndComplete g = Ok g' ->
  lltypes.Validators g' = Some [] ->
  lltypes.NewValidatorSet [] = Return empty ->
  lltypes.CopyIncrementProposerPriority 1 empty = Panic msg ->
  state.NewFromGenesisDoc g = Panic msg /\
  forall g0 g0' params,
    lltypes.ValidateAndComplete g0 = Ok g0' ->
    lltypes.Validators g0' = None ->
    lltypes.ConsensusParams g0' = Some params ->
    exists st,
      state.NewFromGenesisDoc g0 = Return (Ok st) /\
      state.Validators st = empty /\
      state.NextValidators st = empty.
Proof.
  intros Hvalid Hvals Hempty Hpanic. split.
  - unfold state.NewFromGenesisDoc, state.initial_validator_sets.
    rewrite Hvalid, Hvals. cbn [state.genesis_validators map].
    rewrite Hempty. cbn [go_bind]. rewrite Hpanic. reflexivity.
  - intros g0 g0' params Hvalid0 Hnil Hparams.
    assert (Hsets : state.initial_validator_sets g0' = Return (empty, empty)).
    { unfold state.initial_validator_sets. rewrite Hnil, Hempty. reflexivity. }
    eexists. split.
    { apply (NewFromGenesisDoc_returns g0 g0' params (empty, empty) empty); assumption. }
    split; reflexivity.
Qed.

End SeedingNoValidators.

(** ** The gossip loop *)
Section Gossip.

Implicit Types (l : publish.Loop) (env : publish.Env) (envs : list publish.Env)
  (t : list publish.Event) (e : nat) (memTx : mempool.MempoolTx).

(** A failed [GossipTx] leaves the cursor and the program point as they are. *)
Lemma step_send_failure env l e memTx err :
  publish.pc l = publish.Send ->
  publish.next l = Some e ->
  (publish.rawMempool l ++ publish.admitted env)%list !! e = Some memTx ->
  publish.GossipTx_err env = Some err ->
  publish.step env l
  = ({| publish.rawMempool := (publish.rawMempool l ++ publish.admitted env)%list;
        publish.next := Some e;
        publish.pc := publish.Send |},
     [publish.GossipTx (mempool.tx memTx) (Some err)]).
Proof.
  intros Hpc Hnext Hval Herr. unfold publish.step.
  rewrite Hpc, Hnext, Hval, Herr. reflexivity.
Qed.

(** At the head of the inner loop the step calls [GossipTx] on the entry
    under the cursor. *)
Lemma step_send_calls env l e memTx :
  publish.pc l = publish.Send ->
  publish.next l = Some e ->
  (publish.rawMempool l ++ publish.admitted env)%list !! e = Some memTx ->
  snd (publish.step env l)
  = [publish.GossipTx (mempool.tx memTx) (publish.GossipTx_err env)].
Proof.
  intros Hpc Hnext Hval. unfold publish.step. rewrite Hpc, Hnext, Hval.
  destruct (publish.GossipTx_err env) as [err|]; [reflexivity|].
  destruct (publish.Next _ e); reflexivity.
Qed.

(** The two [select]s return when the context is done and its case is the
    one taken. *)
Lemma step_wait_returns env l :
  publish.pc l = publish.WaitTxs \/
  (publish.pc l = publish.WaitNext /\ publish.next l <> None) ->
  publish.Done env = true ->
  publish.pick_Done env = true ->
  publish.pc (fst (publish.step env l)) = publish.Returned.
Proof.
  intros Hpc Hdone Hpick. unfold publish.step, publish.select.
  rewrite Hdone, Hpick.
  destruct Hpc as [-> | [-> Hnext]].
  - destruct (publish.TxsWaitChan_ready _); reflexivity.
  - destruct (publish.next l) as [e|]; [|contradiction].
    destruct (publish.NextWaitChan_ready _ e); reflexivity.
Qed.

(** C9 (the code on the failing input). From the head of the inner loop
    with the cursor on an entry of the pool, while every [GossipTx] fails the
    loop stays at the head of the inner loop on the same entry: it does not
    return, whether or not the context is done. *)
Theorem publish_loop_spins_while_gossip_fails envs l e memTx :
  publish.pc l = publish.Send ->
  publish.next l = Some e ->
  publish.rawMempool l !! e = Some memTx ->
  Forall (fun env => publish.GossipTx_err env <> None) envs ->
  publish.pc (fst (publish.run envs l)) = publish.Send /\
  publish.next (fst (publish.run envs l)) = Some e /\
  publish.pc (fst (publish.run envs l)) <> publish.Returned.
Proof.
  intros Hpc Hnext Hval Hfail.
  assert (Hspin : publish.pc (fst (publish.run envs l)) = publish.Send /\
                  publish.next (fst (publish.run envs l)) = Some e).
  { revert l Hpc Hnext Hval.
    induction Hfail as [|env envs Herr _ IH]; intros l Hpc Hnext Hval.
    - split; assumption.
    - cbn [publish.run].
      destruct (publish.GossipTx_err env) as [err|] eqn:Hgossip; [|contradiction].
      assert (Hval' : (publish.rawMempool l ++ publish.admitted env)%list !! e = Some memTx)
        by (apply lookup_app_l_Some; exact Hval).
      rewrite (step_send_failure env l e memTx err Hpc Hnext Hval' Hgossip).
      match goal with
      | |- context [publish.run envs ?l1] =>
          specialize (IH l1 eq_refl eq_refl Hval');
          destruct (publish.run envs l1) as [l2 t2]
      end.
      exact IH. }
  destruct Hspin as [Hs Hn]. split; [exact Hs|]. split; [exact Hn|].
  rewrite Hs. discriminate.
Qed.

(** *** Every admitted transaction is gossiped *)

Lemma run_app envs1 envs2 l :
  publish.run (envs1 ++ envs2) l
  = (fst (publish.run envs2 (fst (publish.run envs1 l))),
     (snd (publish.run envs1 l) ++ snd (publish.run envs2 (fst (publish.run envs1 l))))%list).
Proof.
  revert l. induction envs1 as [|env envs1 IH]; intros l.
  - cbn. destruct (publish.run envs2 l); reflexivity.
  - cbn [app publish.run]. destruct (publish.step env l) as [l1 t1].
    rewrite IH. destruct (publish.run envs1 l1) as [l2 t2]. cbn [fst snd].
    destruct (publish.run envs2 l2) as [l3 t3]. cbn [fst snd].
    rewrite app_assoc. reflexivity.
Qed.

Lemma run_n_S (inputs : nat -> publish.Env) k l :
  publish.run_n inputs (S k) l
  = (fst (publish.step (inputs k) (fst (publish.run_n inputs k l))),
     (snd (publish.run_n inputs k l)
      ++ snd (publish.step (inputs k) (fst (publish.run_n inputs k l))))%list).
Proof.
  unfold publish.run_n. rewrite seq_S, map_app, run_app. cbn [map publish.run Nat.add].
  destruct (publish.step (inputs k) _) as [l2 t2]. cbn [fst snd].
  rewrite app_nil_r. reflexivity.
Qed.

Lemma step_rawMempool env l :
  publish.rawMempool (fst (publish.step env l))
  = (publish.rawMempool l ++ publish.admitted env)%list.
Proof.
  unfold publish.step, publish.top.
  repeat match goal with
         | |- context [match ?x with _ => _ end] => destruct x
         end; reflexivity.
Qed.

(** A step with the context not done keeps the loop at work, keeps what
    was gossiped and does not move the cursor back. *)
Lemma step_at_work env l t :
  publish.Done env = false ->
  publish.at_work l ->
  publish.gossiped l t ->
  publish.at_work (fst (publish.step env l)) /\
  publish.gossiped (fst (publish.step env l)) (t ++ snd (publish.step env l)) /\
  (publish.passed l <= publish.passed (fst (publish.step env l)))%nat.
Proof.
  intros Hdone Hwork Hgos.
  unfold publish.at_work in Hwork. unfold publish.gossiped in *.
  unfold publish.step, publish.select, publish.top, publish.passed in *.
  rewrite Hdone.
  destruct l as [pool nx pc]; cbn [publish.rawMempool publish.next publish.pc] in *.
  set (pool' := (pool ++ publish.admitted env)%list).
  assert (Hpre : forall j m, (j < length pool)%nat -> pool' !! j = Some m ->
                             pool !! j = Some m).
  { intros j m Hj Hm. unfold pool' in Hm. rewrite lookup_app_l in Hm; assumption. }
  assert (Hlen : (length pool <= length pool')%nat).
  { unfold pool'. rewrite length_app. lia. }
  destruct pc; try contradiction.
  - (* the select on TxsWaitChan *)
    destruct nx as [e|]; [contradiction|].
    destruct pool' as [|m0 pool''] eqn:Hpool'; cbn.
    + split; [exact I|]. split; [|lia]. intros j m Hj. lia.
    + split; [lia|]. split; [|lia]. intros j m Hj. lia.
  - (* the head of the inner loop *)
    destruct nx as [e|]; [|contradiction].
    destruct (lookup_lt_is_Some_2 pool' e ltac:(lia)) as [memTx HmemTx].
    rewrite HmemTx.
    destruct (publish.GossipTx_err env) as [err|]; cbn.
    + split; [lia|]. split; [|lia].
      intros j m Hj Hm. apply in_or_app. left.
      apply (Hgos j m Hj). apply Hpre; [lia|exact Hm].
    + unfold publish.Next.
      destruct (S e <? length pool')%nat eqn:Hnext; cbn.
      * apply Nat.ltb_lt in Hnext. split; [lia|]. split; [|lia].
        intros j m Hj Hm. apply in_or_app.
        destruct (decide (j = e)) as [->|Hne].
        -- right. rewrite HmemTx in Hm. injection Hm as <-. left. reflexivity.
        -- left. apply (Hgos j m); [lia|]. apply Hpre; [lia|exact Hm].
      * split; [lia|]. split; [|lia].
        intros j m Hj Hm. apply in_or_app.
        destruct (decide (j = e)) as [->|Hne].
        -- right. rewrite HmemTx in Hm. injection Hm as <-. left. reflexivity.
        -- left. apply (Hgos j m); [lia|]. apply Hpre; [lia|exact Hm].
  - (* the select on NextWaitChan *)
    destruct nx as [e|]; [|contradiction].
    unfold publish.NextWaitChan_ready, publish.Next.
    destruct (S e <? length pool')%nat eqn:Hnext; cbn.
    + apply Nat.ltb_lt in Hnext. split; [lia|]. split; [|lia].
      intros j m Hj Hm. apply in_or_app. left.
      apply (Hgos j m Hj). apply Hpre; [lia|exact Hm].
    + split; [lia|]. split; [|lia].
      intros j m Hj Hm. apply in_or_app. left.
      apply (Hgos j m Hj). apply Hpre; [lia|exact Hm].
Qed.

Section Fair.
(** The inputs of the steps, the pool the loop starts with, and the two
    assumptions of the run: the context is never done, and the network does
    not fail for ever. *)
Variable inputs : nat -> publish.Env.
Variable pool0 : list mempool.MempoolTx.
Hypothesis never_done : forall k, publish.Done (inputs k) = false.
Hypothesis gossip_recovers :
  forall k, exists k', (k <= k')%nat /\ publish.GossipTx_err (inputs k') = None.

#[local] Abbreviation at_step k := (publish.run_n inputs k (publish.start pool0)).

Lemma at_step_at_work k :
  publish.at_work (fst (at_step k)) /\
  publish.gossiped (fst (at_step k)) (snd (at_step k)).
Proof.
  induction k as [|k [Hwork Hgos]].
  - split; [exact I|]. intros j m Hj. cbn in Hj. lia.
  - rewrite run_n_S. cbn [fst snd].
    destruct (step_at_work (inputs k) _ _ (never_done k) Hwork Hgos) as (H1 & H2 & _).
    split; assumption.
Qed.

Lemma at_step_passed_mono k d :
  (publish.passed (fst (at_step k)) <= publish.passed (fst (at_step (k + d))))%nat.
Proof.
  induction d as [|d IH].
  - rewrite Nat.add_0_r. lia.
  - rewrite Nat.add_succ_r, run_n_S. cbn [fst].
    destruct (at_step_at_work (k + d)) as [Hwork Hgos].
    destruct (step_at_work (inputs (k + d)%nat) _ _ (never_done _) Hwork Hgos) as (_ & _ & Hle).
    lia.
Qed.

Lemma at_step_pool k d i m :
  publish.rawMempool (fst (at_step k)) !! i = Some m ->
  publish.rawMempool (fst (at_step (k + d))) !! i = Some m.
Proof.
  intros Hm. induction d as [|d IH].
  - rewrite Nat.add_0_r. exact Hm.
  - rewrite Nat.add_succ_r, run_n_S. cbn [fst].
    rewrite step_rawMempool. apply lookup_app_l_Some. exact IH.
Qed.

Lemma at_work_passed_le l :
  publish.at_work l -> (publish.passed l <= length (publish.rawMempool l))%nat.
Proof.
  unfold publish.at_work, publish.passed.
  destruct (publish.pc l), (publish.next l); intros Hw; try contradiction; lia.
Qed.

(** From the head of the inner loop, the cursor's entry is passed once a
    [GossipTx] succeeds. *)
Lemma send_progress d : forall k e,
  publish.pc (fst (at_step k)) = publish.Send ->
  publish.next (fst (at_step k)) = Some e ->
  publish.GossipTx_err (inputs (k + d)%nat) = None ->
  exists k', (S e <= publish.passed (fst (at_step k')))%nat.
Proof.
  induction d as [|d IH]; intros k e Hpc Hnext Hok.
  - rewrite Nat.add_0_r in Hok. exists (S k). rewrite run_n_S. cbn [fst].
    destruct (at_step_at_work k) as [Hwork _].
    unfold publish.at_work in Hwork. rewrite Hpc, Hnext in Hwork.
    unfold publish.step. rewrite Hpc, Hnext, Hok.
    destruct (lookup_lt_is_Some_2
                (publish.rawMempool (fst (at_step k)) ++ publish.admitted (inputs k))%list e)
      as [memTx HmemTx]; [rewrite length_app; lia|].
    rewrite HmemTx. unfold publish.Next.
    destruct (S e <? _)%nat; cbn; lia.
  - destruct (publish.GossipTx_err (inputs k)) as [err|] eqn:Hk.
    + destruct (at_step_at_work k) as [Hwork _].
      unfold publish.at_work in Hwork. rewrite Hpc, Hnext in Hwork.
      destruct (lookup_lt_is_Some_2
                  (publish.rawMempool (fst (at_step k)) ++ publish.admitted (inputs k))%list e)
        as [memTx HmemTx]; [rewrite length_app; lia|].
      apply (IH (S k) e).
      * rewrite run_n_S. cbn [fst].
        rewrite (step_send_failure _ _ e memTx err Hpc Hnext HmemTx Hk). reflexivity.
      * rewrite run_n_S. cbn [fst].
        rewrite (step_send_failure _ _ e memTx err Hpc Hnext HmemTx Hk). reflexivity.
      * rewrite Nat.add_succ_comm. exact Hok.
    + exists (S k). rewrite run_n_S. cbn [fst].
      destruct (at_step_at_work k) as [Hwork _].
      unfold publish.at_work in Hwork. rewrite Hpc, Hnext in Hwork.
      unfold publish.step. rewrite Hpc, Hnext, Hk.
      destruct (lookup_lt_is_Some_2
                  (publish.rawMempool (fst (at_step k)) ++ publish.admitted (inputs k))%list e)
        as [memTx HmemTx]; [rewrite length_app; lia|].
      rewrite HmemTx. unfold publish.Next.
      destruct (S e <? _)%nat; cbn; lia.
Qed.

Lemma send_passes k e :
  publish.pc (fst (at_step k)) = publish.Send ->
  publish.next (fst (at_step k)) = Some e ->
  exists k', (S e <= publish.passed (fst (at_step k')))%nat.
Proof.
  intros Hpc Hnext.
  destruct (gossip_recovers k) as (k' & Hle & Hok).
  apply (send_progress (k' - k) k e Hpc Hnext).
  replace (k + (k' - k))%nat with k' by lia. exact Hok.
Qed.

(** While an entry lies ahead of the cursor, the loop passes one more. *)
Lemma passes_one_more k :
  (publish.passed (fst (at_step k)) < length (publish.rawMempool (fst (at_step k))))%nat ->
  exists k', (publish.passed (fst (at_step k)) < publish.passed (fst (at_step k')))%nat.
Proof.
  intros Hahead.
  destruct (at_step_at_work k) as [Hwork _].
  unfold publish.at_work in Hwork. unfold publish.passed in Hahead |- * at 1.
  destruct (publish.pc (fst (at_step k))) eqn:Hpc;
    destruct (publish.next (fst (at_step k))) as [e|] eqn:Hnext; try contradiction.
  - (* waiting for transactions, and the pool has one *)
    apply (send_passes (S k) 0%nat); rewrite run_n_S; cbn [fst];
      unfold publish.step, publish.select; rewrite Hpc, (never_done k);
      destruct (publish.rawMempool (fst (at_step k))) as [|m pool]; cbn in Hahead |- *;
      solve [lia | reflexivity].
  - apply (send_passes k e Hpc Hnext).
  - (* waiting for a successor, and there is one *)
    assert (Hready : (S e <? length (publish.rawMempool (fst (at_step k))
                                     ++ publish.admitted (inputs k)))%nat = true).
    { apply Nat.ltb_lt. rewrite length_app. lia. }
    apply (send_passes (S k) (S e)); rewrite run_n_S; cbn [fst];
      unfold publish.step, publish.select, publish.NextWaitChan_ready, publish.Next;
      rewrite Hpc, Hnext, (never_done k), Hready; reflexivity.
Qed.

(** The loop passes any number of entries the pool holds. *)
Lemma passes_all c : forall k,
  (c <= length (publish.rawMempool (fst (at_step k))))%nat ->
  exists k', (k <= k')%nat /\ (c <= publish.passed (fst (at_step k')))%nat.
Proof.
  induction c as [|c IH]; intros k Hc.
  - exists k. split; lia.
  - destruct (IH k ltac:(lia)) as (k1 & Hk1 & Hpassed).
    destruct (decide (S c <= publish.passed (fst (at_step k1)))%nat) as [Hdone|Hnot].
    { exists k1. split; assumption. }
    assert (Hlen : (S c <= length (publish.rawMempool (fst (at_step k1))))%nat).
    { destruct (lookup_lt_is_Some_2 (publish.rawMempool (fst (at_step k))) c ltac:(lia))
        as [m Hm].
      pose proof (at_step_pool k (k1 - k) c m Hm) as Hm'.
      replace (k + (k1 - k))%nat with k1 in Hm' by lia.
      apply lookup_lt_Some in Hm'. lia. }
    destruct (passes_one_more k1 ltac:(lia)) as (k2 & Hk2).
    exists (Nat.max k1 k2). split; [lia|].
    pose proof (at_step_passed_mono k2 (Nat.max k1 k2 - k2)) as Hmono.
    replace (k2 + (Nat.max k1 k2 - k2))%nat with (Nat.max k1 k2) in Hmono by lia.
    lia.
Qed.

Lemma admitted_is_gossiped k i memTx :
  publish.rawMempool (fst (at_step k)) !! i = Some memTx ->
  exists k', In (publish.GossipTx (mempool.tx memTx) None) (snd (at_step k')).
Proof.
  intros Hm.
  destruct (passes_all (S i) k) as (k' & Hk' & Hpassed).
  { apply lookup_lt_Some in Hm. lia. }
  exists k'.
  destruct (at_step_at_work k') as [_ Hgos].
  apply (Hgos i memTx); [lia|].
  pose proof (at_step_pool k (k' - k) i memTx Hm) as Hm'.
  replace (k + (k' - k))%nat with k' in Hm' by lia. exact Hm'.
Qed.


End Fair.

End Gossip.

(** * The properties on concrete inputs *)

(** C3 on a node with an empty pool. *)
Lemma publishBlock_empty_mempool_witness :
  exists n' calls,
    node.publishBlock 5 (testing.testNode true testing.store_1 mempool.NewCListMempool)
    = (None, n', calls) /\
    n' = testing.testNode true testing.store_1 mempool.NewCListMempool /\
    store.Height (node.BlockStore n') = 1 /\
    (forall b, ~ In (node.BlockStore_SaveBlock b) calls).
Proof.
  exact (publishBlock_empty_mempool
           (testing.testNode true testing.store_1 mempool.NewCListMempool) 5 eq_refl).
Defined.

(** C4 at height 2 on a store holding block 1. *)
Lemma makeBlock_spec_witness :
  1 <= 2 < 2 ^ 64 /\
  exists block,
    fst (fst (node.makeBlock 5 2 [testing.hello]
                (testing.testNode true testing.store_1 testing.pool_hello))) = Ok block /\
    types.Height (types.Block_Header block) = 2 /\
    types.LastHeaderHash (types.Block_Header block) = testing.digest 1 /\
    types.DataHash (types.Block_Header block) = testing.digest 1.
Proof.
  split; [lia|].
  pose proof (makeBlock_spec (testing.testNode true testing.store_1 testing.pool_hello)
                5 2 [testing.hello] ltac:(lia)) as Hspec.
  change (store.LoadBlock (2 - 1)
            (node.BlockStore (testing.testNode true testing.store_1 testing.pool_hello)))
    with (Ok (testing.block 1)) in Hspec.
  destruct (Hspec (testing.digest 1) (testing.digest 1) eq_refl eq_refl)
    as (block & Hblock & Hheight & Hlast & _ & _ & _ & _ & _ & _ & _ & Hdata).
  exists block. repeat split; assumption.
Defined.

(** C1 as stated fails: a tick on a store holding block 1, with ["hello"]
    pooled and the mock DA client, returns nil and brings the store to
    height 2, and the mock client has recorded no block. *)
Lemma publishBlock_submits_nothing :
  let r := node.publishBlock 5
             (testing.testNode true testing.store_1 testing.pool_hello) in
  fst (fst r) = None /\
  store.Height (node.BlockStore (snd (fst r))) = 2 /\
  (exists block, store.LoadBlock 2 (node.BlockStore (snd (fst r))) = Ok block /\
                 types.Data_Txs (types.Block_Data block) = [testing.hello]) /\
  ~ (exists block, In block (mock.Blocks (node.dalc (snd (fst r))))).
Proof.
  cbv zeta. split; [reflexivity|]. split; [reflexivity|]. split.
  - eexists. split; reflexivity.
  - intros [block []].
Qed.

(** C1 (amended) on the same tick. *)
Lemma publishBlock_saves_without_submitting_witness :
  exists n' calls,
    node.publishBlock 5 (testing.testNode true testing.store_1 testing.pool_hello)
    = (None, n', calls) /\
    store.Height (node.BlockStore n') = 2 /\
    forallb (fun e => negb (node.is_dalc_call e)) calls = true /\
    node.dalc n' = {| mock.Blocks := [] |}.
Proof.
  edestruct (publishBlock_saves_without_submitting
               (testing.testNode true testing.store_1 testing.pool_hello)
               5 [testing.hello])
    as (n' & calls & Hrun & Hstore & _ & Hcalls & Hdalc).
  - reflexivity.
  - discriminate.
  - reflexivity.
  - reflexivity.
  - exists n', calls. split; [exact Hrun|]. split; [rewrite Hstore; reflexivity|].
    split; [exact Hcalls|exact Hdalc].
Defined.

(** C10 on a new store with ["hello"] pooled. *)
Lemma publishBlock_empty_store_witness :
  node.publishBlock 5 (testing.testNode true store.NewBlockStore testing.pool_hello)
  = (Some "block not found",
     testing.testNode true store.NewBlockStore testing.pool_hello,
     [node.Mempool_ReapMaxBytesMaxGas (32 * 1024) (-1);
      node.BlockStore_Height;
      node.BlockStore_LoadBlock 0]).
Proof.
  apply (publishBlock_empty_store
           (testing.testNode true store.NewBlockStore testing.pool_hello) 5).
  - reflexivity.
  - discriminate.
Defined.

(** C2 as stated fails: on a node that is not an aggregator [OnStart]
    returns nil and has not launched the aggregation loop. *)
Lemma OnStart_without_aggregation :
  let r := node.OnStart (testing.testNode false testing.store_1 testing.pool_hello) in
  fst (fst r) = None /\
  ~ In (node.go_ node.go_aggregationLoop) (snd r).
Proof.
  cbv zeta. split; [reflexivity|].
  cbn. intros [H|[H|[H|[H|[H|[]]]]]]; discriminate H.
Qed.

(** C2 (amended) on an aggregator. *)
Lemma OnStart_launches_witness :
  snd (node.OnStart (testing.testNode true testing.store_1 testing.pool_hello))
  = [node.P2P_Start; node.dalc_Start;
     node.go_ node.go_mempoolReadLoop;
     node.go_ node.go_mempoolPublishLoop;
     node.go_ node.go_aggregationLoop;
     node.P2P_SetTxHandler p2p.SendOn_incomingTxCh].
Proof.
  apply (OnStart_launches (testing.testNode true testing.store_1 testing.pool_hello)).
  reflexivity.
Defined.

(** C7 with the unknown backend named and the application reachable. *)
Lemma NewNode_unknown_backend_witness :
  node.NewNode (D:=mock.MockDataAvailabilityLayerClient) (P:=testing.Net)
    (A:=option error) (E:=unit)
    (testing.nodeConfig true "nope") (Some []) (None : option error) testing.genesisDoc
  = (Err "couldn't get data availability client named 'nope'",
     [node.proxyApp_Start; node.eventBus_Start; node.p2p_NewClient;
      node.registry_GetClient "nope"]).
Proof.
  assert (Hunknown : registry.clients (D:=mock.MockDataAvailabilityLayerClient)
                      !! config.DALayer (testing.nodeConfig true "nope") = None)
    by reflexivity.
  destruct (NewNode_unknown_backend (D:=mock.MockDataAvailabilityLayerClient)
              (P:=testing.Net) (A:=option error) (E:=unit)
              (testing.nodeConfig true "nope") (Some []) (None : option error)
              testing.genesisDoc Hunknown)
    as (_ & _ & _ & _ & _ & Hnamed).
  exact (Hnamed None tt {| testing.started := false; testing.handler := None |}
           eq_refl eq_refl eq_refl).
Defined.

(** The test library keeps the two guarantees on sizes. *)
Lemma testing_Size_NewValidatorSet (l s : list testing.Validator) :
  lltypes.NewValidatorSet l = Return s -> lltypes.Size s = length l.
Proof. intros [= <-]. reflexivity. Qed.

Lemma testing_Size_CopyIncrementProposerPriority times (s s' : list testing.Validator) :
  lltypes.CopyIncrementProposerPriority times s = Return s' ->
  lltypes.Size s' = lltypes.Size s.
Proof.
  destruct s as [|v s]; [discriminate|]. intros [= <-]. cbn. rewrite length_map. reflexivity.
Qed.

(** The validator sets of a document with two validators. *)
Lemma NewFromGenesisDoc_validator_sets_witness :
  exists st,
    state.NewFromGenesisDoc testing.genesisDoc = Return (Ok st) /\
    lltypes.Size (state.Validators st) = 2%nat /\
    lltypes.CopyIncrementProposerPriority 1 (state.Validators st)
    = Return (state.NextValidators st).
Proof.
  edestruct (NewFromGenesisDoc_validator_sets
               testing_Size_NewValidatorSet testing_Size_CopyIncrementProposerPriority
               testing.genesisDoc)
    as (st & Hst & Hcur & Hnxt & Hsize & Hcopy & _).
  - reflexivity.
  - reflexivity.
  - reflexivity.
  - reflexivity.
  - exists st. split; [exact Hst|]. split.
    + rewrite Hcur. exact Hsize.
    + rewrite Hcur, Hnxt. exact (proj2 (Hcopy _ eq_refl)).
Defined.

(** C5 on the failing input: a document whose list of validators is
    empty but not nil, with a library that panics on incrementing an empty
    set. *)
Lemma NewFromGenesisDoc_empty_validator_list_witness :
  lltypes.Validators faults.genesisDoc_no_validators = Some [] /\
  state.NewFromGenesisDoc (VS:=list testing.Validator) faults.genesisDoc_no_validators
  = Panic "empty validator set".
Proof.
  split; [reflexivity|].
  eapply (NewFromGenesisDoc_empty_validator_list (VS:=list testing.Validator)
            faults.genesisDoc_no_validators _ []).
  - reflexivity.
  - reflexivity.
  - reflexivity.
  - reflexivity.
Defined.

(** C6 on the same document, whose initial height is completed to 1. *)
Lemma NewFromGenesisDoc_fields_witness :
  exists st,
    state.NewFromGenesisDoc testing.genesisDoc = Return (Ok st) /\
    state.LastBlockHeight st = 0 /\
    state.LastHeightValidatorsChanged st = 1 /\
    state.LastHeightConsensusParamsChanged st = 1 /\
    state.State_ConsensusParams st = 22020096 /\
    state.State_AppHash st = [Byte.xaa].
Proof.
  edestruct (NewFromGenesisDoc_fields testing.genesisDoc)
    as (st & Hst & H1 & H2 & H3 & H4 & H5).
  - reflexivity.
  - reflexivity.
  - reflexivity.
  - reflexivity.
  - exists st. repeat split; assumption.
Defined.


(** C9 on the failing input: five steps with the context done and the
    network refusing every call leave the loop where it was. *)
Lemma publish_loop_spins_while_gossip_fails_witness :
  publish.pc (fst (publish.run (repeat testing.network_down 5) testing.sending_hello))
  <> publish.Returned.
Proof.
  apply (publish_loop_spins_while_gossip_fails
           (repeat testing.network_down 5) testing.sending_hello 0%nat
           {| mempool.tx := testing.hello; mempool.gasWanted := 0; mempool.sender := 1 |}).
  - reflexivity.
  - reflexivity.
  - reflexivity.
  - repeat constructor; discriminate.
Defined.

(** * Further properties *)

(** ** [NewFromGenesisDoc]: errors, panics and the remaining fields *)
Section SeedingEdges.
Context {CP V VS : Type} `{!lltypes.Core CP V VS}.

Implicit Types (g : lltypes.GenesisDoc CP).

(** X1. A genesis document that does not validate gives no state: the
    result is the validation error behind the prefix
    ["error in genesis doc: "], whatever the validator library would do. *)
Theorem NewFromGenesisDoc_invalid g err :
  lltypes.ValidateAndComplete g = Err err ->
  state.NewFromGenesisDoc g = Return (Err ("error in genesis doc: " +:+ err)).
Proof.
  intros Hinvalid. unfold state.NewFromGenesisDoc. rewrite Hinvalid. reflexivity.
Qed.

(** X2. The state of a valid document carries the initial state version
    (the library's block protocol and software version, application version
    0), the chain id, initial height and genesis time of the completed
    document, an empty last block id, the empty validator set as the last
    validators and no last results hash. *)
Theorem NewFromGenesisDoc_identity g g' params sets lastValidators :
  lltypes.ValidateAndComplete g = Ok g' ->
  lltypes.ConsensusParams g' = Some params ->
  state.initial_validator_sets g' = Return sets ->
  lltypes.NewValidatorSet [] = Return lastValidators ->
  exists st,
    state.NewFromGenesisDoc g = Return (Ok st) /\
    state.Consensus_Block (state.Version_Consensus (state.State_Version st))
      = lltypes.BlockProtocol /\
    state.Consensus_App (state.Version_Consensus (state.State_Version st)) = 0 /\
    state.Software (state.State_Version st) = lltypes.TMCoreSemVer /\
    state.State_ChainID st = lltypes.ChainID g' /\
    state.State_InitialHeight st = lltypes.InitialHeight g' /\
    state.LastBlockTime st = lltypes.GenesisTime g' /\
    state.LastBlockID st = {| lltypes.BlockID_Hash := [] |} /\
    state.LastValidators st = lastValidators /\
    state.LastResultsHash st = [].
Proof.
  intros Hvalid Hparams Hsets Hlast.
  eexists. split.
  { apply (NewFromGenesisDoc_returns g g' params sets lastValidators); assumption. }
  repeat split; reflexivity.
Qed.

(** X3. For a document whose validators are nil the proposer priority is
    not incremented: the current, the next and the last validator set are
    all the set the library builds from no validators, and the result does
    not depend on [CopyIncrementProposerPriority]. *)
Theorem NewFromGenesisDoc_nil_validators g g' params empty :
  lltypes.ValidateAndComplete g = Ok g' ->
  lltypes.ConsensusParams g' = Some params ->
  lltypes.Validators g' = None ->
  lltypes.NewValidatorSet [] = Return empty ->
  exists st,
    state.NewFromGenesisDoc g = Return (Ok st) /\
    state.Validators st = empty /\
    state.NextValidators st = empty /\
    state.LastValidators st = empty.
Proof.
  intros Hvalid Hparams Hnil Hempty.
  assert (Hsets : state.initial_validator_sets g' = Return (empty, empty)).
  { unfold state.initial_validator_sets. rewrite Hnil, Hempty. reflexivity. }
  eexists. split.
  { apply (NewFromGenesisDoc_returns g g' params (empty, empty) empty); assumption. }
  repeat split; reflexivity.
Qed.

(** X4. For a document with a non-nil list of validators, a panic of the
    library while it builds the set or while it increments the proposer
    priority of the copy is a panic of [NewFromGenesisDoc], with the same
    message. *)
Theorem NewFromGenesisDoc_panics g g' vals msg :
  lltypes.ValidateAndComplete g = Ok g' ->
  lltypes.Validators g' = Some vals ->
  (lltypes.NewValidatorSet (state.genesis_validators vals) = Panic msg \/
   exists s, lltypes.NewValidatorSet (state.genesis_validators vals) = Return s /\
             lltypes.CopyIncrementProposerPriority 1 s = Panic msg) ->
  state.NewFromGenesisDoc g = Panic msg.
Proof.
  intros Hvalid Hvals Hpanic.
  unfold state.NewFromGenesisDoc, state.initial_validator_sets.
  rewrite Hvalid, Hvals.
  destruct Hpanic as [Hnew | (s & Hnew & Hcopy)].
  - rewrite Hnew. reflexivity.
  - rewrite Hnew. cbn [go_bind]. rewrite Hcopy. reflexivity.
Qed.

End SeedingEdges.

(** ** [makeBlock] and [publishBlock]: errors, wrap-around and what is left alone *)
Section BlockProductionEdges.
Context {S M D P A E G : Type}.
Context `{!store.Store S} `{!mempool.Mempool M}
        `{!da.DataAvailabilityLayerClient D} `{!p2p.Client P}.
Context `{!types.Hashable types.Header} `{!types.Hashable types.Data}.

Implicit Types (n : node.Node S M D P A E G) (now height : Z) (txs : types.Txs).

(** X5. When the previous block is loaded, an error of either digest is the
    error of [makeBlock]: that of the header of the previous block, or, when
    that one is computed, that of the data of the new block. *)
Theorem makeBlock_hash_errors n now height txs lastBlock e :
  store.LoadBlock (wrap64 (height - 1)) (node.BlockStore n) = Ok lastBlock ->
  (types.Hash (types.Block_Header lastBlock) = Err e \/
   exists lastHash,
     types.Hash (types.Block_Header lastBlock) = Ok lastHash /\
     types.Hash {| types.Data_Txs := txs;
                   types.Data_IntermediateStateRoots := {| types.RawRootsList := [] |};
                   types.Data_Evidence := {| types.Evidence := [] |} |} = Err e) ->
  fst (fst (node.makeBlock now height txs n)) = Err e.
Proof.
  intros Hload Hhash.
  unfold node.makeBlock, node.bind, node.call_LoadBlock. rewrite Hload.
  destruct Hhash as [Hhdr | (lastHash & Hhdr & Hdata)]; rewrite Hhdr.
  - reflexivity.
  - cbn [types.Block_Data]. rewrite Hdata. reflexivity.
Qed.

(** X6. Every block [makeBlock] returns, at any height, keeps the header
    invariants: its [DataHash] is the digest of its own data, its
    [LastHeaderHash] is the digest of the header of the block stored one
    below the target height (modulo 2^64), its timestamp is the clock
    reading as a [uint64], its version is 0/0, its namespace is zero, and its
    data are the transactions with no state roots and no evidence. *)
Theorem makeBlock_block_invariants n now height txs block :
  fst (fst (node.makeBlock now height txs n)) = Ok block ->
  types.Hash (types.Block_Data block) = Ok (types.DataHash (types.Block_Header block)) /\
  (exists lastBlock,
      store.LoadBlock (wrap64 (height - 1)) (node.BlockStore n) = Ok lastBlock /\
      types.Hash (types.Block_Header lastBlock)
        = Ok (types.LastHeaderHash (types.Block_Header block))) /\
  types.Height (types.Block_Header block) = height /\
  types.Time (types.Block_Header block) = now mod 2 ^ 64 /\
  0 <= types.Time (types.Block_Header block) < 2 ^ 64 /\
  types.Header_Version (types.Block_Header block)
    = {| types.Version_Block := 0; types.Version_App := 0 |} /\
  types.NamespaceID (types.Block_Header block) = zero_bytes 8 /\
  types.Block_Data block
    = {| types.Data_Txs := txs;
         types.Data_IntermediateStateRoots := {| types.RawRootsList := [] |};
         types.Data_Evidence := {| types.Evidence := [] |} |}.
Proof.
  unfold node.makeBlock, node.bind, node.call_LoadBlock.
  destruct (store.LoadBlock (wrap64 (height - 1)) (node.BlockStore n)) as [lastBlock|e];
    [|discriminate].
  destruct (types.Hash (types.Block_Header lastBlock)) as [lastHash|e] eqn:Hhdr;
    [|discriminate].
  cbn [types.Block_Data].
  match goal with
  | |- context [types.Hash ?d] => destruct (types.Hash d) as [dataHash|e] eqn:Hdata
  end; [|discriminate].
  cbn. intros [= <-]. cbn.
  split; [exact Hdata|]. split; [exists lastBlock; split; [reflexivity|exact Hhdr]|].
  split; [reflexivity|]. split; [reflexivity|].
  split; [apply Z.mod_pos_bound; lia|].
  repeat split; reflexivity.
Qed.

(** [publishBlock] with a non-empty reap, by cases. *)
Lemma publishBlock_reaped n now :
  mempool.ReapMaxBytesMaxGas (32 * 1024) (-1) (node.Mempool n) <> [] ->
  node.publishBlock now n
  = match fst (fst (node.makeBlock now (wrap64 (store.Height (node.BlockStore n) + 1))
                      (mempool.ReapMaxBytesMaxGas (32 * 1024) (-1) (node.Mempool n)) n)) with
    | Err e =>
        (Some e, n,
         [node.Mempool_ReapMaxBytesMaxGas (32 * 1024) (-1);
          node.BlockStore_Height;
          node.BlockStore_LoadBlock
            (wrap64 (wrap64 (store.Height (node.BlockStore n) + 1) - 1))])
    | Ok block =>
        (snd (store.SaveBlock block (node.BlockStore n)),
         node.set_BlockStore (fst (store.SaveBlock block (node.BlockStore n))) n,
         [node.Mempool_ReapMaxBytesMaxGas (32 * 1024) (-1);
          node.BlockStore_Height;
          node.BlockStore_LoadBlock
            (wrap64 (wrap64 (store.Height (node.BlockStore n) + 1) - 1));
          node.BlockStore_SaveBlock block])
    end.
Proof.
  intros Hreap.
  pose proof (makeBlock_eq n now (wrap64 (store.Height (node.BlockStore n) + 1))
                (mempool.ReapMaxBytesMaxGas (32 * 1024) (-1) (node.Mempool n))) as Heq.
  unfold node.publishBlock, node.bind at 1, node.call_Reap.
  destruct (length _ =? 0)%nat eqn:Hlen.
  { apply length_eqb_0 in Hlen. contradiction. }
  unfold node.bind at 1, node.call_Height. unfold node.bind at 1.
  revert Heq.
  destruct (node.makeBlock now (wrap64 (store.Height (node.BlockStore n) + 1))
              (mempool.ReapMaxBytesMaxGas (32 * 1024) (-1) (node.Mempool n)) n)
    as [[r n1] t1].
  cbn [fst snd]. intros [= -> ->].
  destruct r as [block|e]; [|reflexivity].
  unfold node.bind, node.call_SaveBlock.
  destruct (store.SaveBlock block (node.BlockStore n)) as [s' [e|]]; reflexivity.
Qed.

Lemma wrap64_succ_pred h : 0 <= h < 2 ^ 64 -> wrap64 (wrap64 (h + 1) - 1) = h.
Proof.
  intros Hh. unfold wrap64.
  destruct (Z.eq_dec h (2 ^ 64 - 1)) as [->|Hne].
  - reflexivity.
  - rewrite (Z.mod_small (h + 1)) by lia. rewrite Z.mod_small by lia. lia.
Qed.

(** X7. With a store height in the [uint64] range and a non-empty reap,
    [publishBlock] builds on the tip: the block it loads as the previous one
    is the block at the store's own height, also at the top of the range,
    where the target height wraps to 0; it then either stops there with an
    error or saves one block, whose height is the store's height plus one
    modulo 2^64 and whose transactions are the reaped ones. *)
Theorem publishBlock_builds_on_tip n now :
  0 <= store.Height (node.BlockStore n) < 2 ^ 64 ->
  mempool.ReapMaxBytesMaxGas (32 * 1024) (-1) (node.Mempool n) <> [] ->
  exists rest,
    snd (node.publishBlock now n)
    = ([node.Mempool_ReapMaxBytesMaxGas (32 * 1024) (-1);
        node.BlockStore_Height;
        node.BlockStore_LoadBlock (store.Height (node.BlockStore n))] ++ rest)%list /\
    ((rest = [] /\ fst (fst (node.publishBlock now n)) <> None) \/
     exists block,
       rest = [node.BlockStore_SaveBlock block] /\
       types.Height (types.Block_Header block)
         = (store.Height (node.BlockStore n) + 1) mod 2 ^ 64 /\
       types.Data_Txs (types.Block_Data block)
         = mempool.ReapMaxBytesMaxGas (32 * 1024) (-1) (node.Mempool n)).
Proof.
  intros Hrange Hreap.
  rewrite (publishBlock_reaped n now Hreap), (wrap64_succ_pred _ Hrange).
  destruct (fst (fst (node.makeBlock now _ _ n))) as [block|e] eqn:Hmake.
  - pose proof (makeBlock_block_invariants _ _ _ _ _ Hmake)
      as (_ & _ & Hheight & _ & _ & _ & _ & Hdata).
    cbn [fst snd]. eexists. split; [reflexivity|]. right. exists block.
    split; [reflexivity|]. rewrite Hdata. split; [exact Hheight|reflexivity].
  - cbn [fst snd]. exists []. split; [reflexivity|]. left.
    split; [reflexivity|discriminate].
Qed.

(** X8. When the store refuses the new block, [publishBlock] returns the
    store's error after the save and does not go on to [broadcastBlock]; the
    node holds the store as the failed save left it. *)
Theorem publishBlock_save_error n now block s' e :
  mempool.ReapMaxBytesMaxGas (32 * 1024) (-1) (node.Mempool n) <> [] ->
  fst (fst (node.makeBlock now (wrap64 (store.Height (node.BlockStore n) + 1))
              (mempool.ReapMaxBytesMaxGas (32 * 1024) (-1) (node.Mempool n)) n))
    = Ok block ->
  store.SaveBlock block (node.BlockStore n) = (s', Some e) ->
  node.publishBlock now n
  = (Some e, node.set_BlockStore s' n,
     [node.Mempool_ReapMaxBytesMaxGas (32 * 1024) (-1);
      node.BlockStore_Height;
      node.BlockStore_LoadBlock
        (wrap64 (wrap64 (store.Height (node.BlockStore n) + 1) - 1));
      node.BlockStore_SaveBlock block]).
Proof.
  intros Hreap Hmake Hsave.
  rewrite (publishBlock_reaped n now Hreap), Hmake, Hsave. reflexivity.
Qed.

(** X9. Whatever its outcome, [publishBlock] changes nothing of the node
    but the block store: the pool keeps the transactions it has just put in
    a block, and the DA client, the network client and the configuration are
    as before; it makes no call on the DA client or the network client. *)
Theorem publishBlock_frame n now :
  let r := node.publishBlock now n in
  node.Mempool (snd (fst r)) = node.Mempool n /\
  node.dalc (snd (fst r)) = node.dalc n /\
  node.P2P (snd (fst r)) = node.P2P n /\
  node.conf (snd (fst r)) = node.conf n /\
  Forall (fun ev => match ev with
                    | node.Mempool_ReapMaxBytesMaxGas _ _ | node.BlockStore_Height
                    | node.BlockStore_LoadBlock _ | node.BlockStore_SaveBlock _ => True
                    | _ => False
                    end) (snd r).
Proof.
  cbv zeta.
  destruct (mempool.ReapMaxBytesMaxGas (32 * 1024) (-1) (node.Mempool n)) as [|t txs] eqn:Hreap.
  - rewrite (publishBlock_nothing_reaped n now Hreap). cbn.
    repeat split; try reflexivity. repeat constructor.
  - rewrite (publishBlock_reaped n now) by (rewrite Hreap; discriminate).
    destruct (fst (fst (node.makeBlock now _ _ n))) as [block|e];
      cbn; repeat split; try reflexivity; repeat constructor.
Qed.

End BlockProductionEdges.

(** ** Ticks on a store that holds its tip *)
Section Chain.
Context {M D P A E G : Type}.
Context `{!mempool.Mempool M} `{!da.DataAvailabilityLayerClient D} `{!p2p.Client P}.
Context `{!types.Hashable types.Header} `{!types.Hashable types.Data}.

(** The digests are computed for every header and every data. *)
Hypothesis Hash_Header_total : forall hd : types.Header, exists d, types.Hash hd = Ok d.
Hypothesis Hash_Data_total : forall data : types.Data, exists d, types.Hash data = Ok d.

Implicit Types (n : node.Node store.DefaultBlockStore M D P A E G) (now : Z).

(** One [publishBlock] on a store that holds the block at its height. *)
Lemma publishBlock_on_tip n now tip :
  store.LoadBlock (store.Height (node.BlockStore n)) (node.BlockStore n) = Ok tip ->
  0 <= store.Height (node.BlockStore n) < 2 ^ 64 ->
  exists n' calls,
    node.publishBlock now n = (None, n', calls) /\
    node.Mempool n' = node.Mempool n /\
    (exists tip', store.LoadBlock (store.Height (node.BlockStore n')) (node.BlockStore n')
                  = Ok tip') /\
    store.Height (node.BlockStore n')
    = if (length (mempool.ReapMaxBytesMaxGas (32 * 1024) (-1) (node.Mempool n)) =? 0)%nat
      then store.Height (node.BlockStore n)
      else wrap64 (store.Height (node.BlockStore n) + 1).
Proof.
  intros Htip Hrange.
  destruct (length _ =? 0)%nat eqn:Hlen.
  - apply length_eqb_0 in Hlen.
    exists n. eexists. split; [apply publishBlock_nothing_reaped; exact Hlen|].
    split; [reflexivity|]. split; [exists tip; exact Htip|reflexivity].
  - assert (Hreap : mempool.ReapMaxBytesMaxGas (32 * 1024) (-1) (node.Mempool n) <> []).
    { intros Hnil. apply length_eqb_0 in Hnil. congruence. }
    rewrite (publishBlock_reaped n now Hreap).
    destruct (Hash_Header_total (types.Block_Header tip)) as [lastHash HlastHash].
    set (txs := mempool.ReapMaxBytesMaxGas (32 * 1024) (-1) (node.Mempool n)).
    destruct (Hash_Data_total
                {| types.Data_Txs := txs;
                   types.Data_IntermediateStateRoots := {| types.RawRootsList := [] |};
                   types.Data_Evidence := {| types.Evidence := [] |} |})
      as [dataHash HdataHash].
    unfold node.makeBlock, node.bind, node.call_LoadBlock.
    rewrite (wrap64_succ_pred _ Hrange), Htip, HlastHash.
    cbn [types.Block_Data]. rewrite HdataHash. cbn [fst snd node.ret].
    eexists. eexists. split; [reflexivity|].
    split; [reflexivity|]. split; [|reflexivity].
    eexists. cbn. unfold store.DefaultBlockStore_LoadBlock. cbn.
    rewrite lookup_insert_eq. reflexivity.
Qed.

Lemma aggregation_ticks_cons now (pool : M) (ticks : list (Z * M)) n :
  snd (fst (node.aggregation_ticks ((now, pool) :: ticks) n))
  = snd (fst (node.aggregation_ticks ticks
                (snd (fst (node.publishBlock now (node.set_Mempool pool n)))))).
Proof.
  cbn [node.aggregation_ticks]. unfold node.bind at 1. cbn beta iota.
  unfold node.bind at 1, node.aggregation_tick. unfold node.bind at 1.
  destruct (node.publishBlock now (node.set_Mempool pool n)) as [[err n1] t1].
  unfold node.ret. cbn beta iota. cbn [fst snd].
  destruct (node.aggregation_ticks ticks n1) as [[u n2] t2]. reflexivity.
Qed.

(** X10. On a store that holds the block at its height, with digests that
    are always computed, every tick of the aggregation loop with something
    to reap adds one block: after any ticks the store again holds the block
    at its height, and that height is the first one plus the number of ticks
    that reaped something, modulo 2^64. *)
Theorem ticks_extend_chain (ticks : list (Z * M)) : forall n tip,
  store.LoadBlock (store.Height (node.BlockStore n)) (node.BlockStore n) = Ok tip ->
  0 <= store.Height (node.BlockStore n) < 2 ^ 64 ->
  let n' := snd (fst (node.aggregation_ticks ticks n)) in
  (exists tip', store.LoadBlock (store.Height (node.BlockStore n')) (node.BlockStore n')
                = Ok tip') /\
  store.Height (node.BlockStore n')
  = (store.Height (node.BlockStore n)
     + Z.of_nat (length (List.filter
         (fun t => negb (length (mempool.ReapMaxBytesMaxGas (32 * 1024) (-1) (snd t)) =? 0)%nat)
         ticks))) mod 2 ^ 64.
Proof.
  induction ticks as [|[now pool] ticks IH]; intros n tip Htip Hrange; cbv zeta.
  - cbn. split; [exists tip; exact Htip|].
    rewrite Z.add_0_r, Z.mod_small; [reflexivity|exact Hrange].
  - rewrite aggregation_ticks_cons.
    destruct (publishBlock_on_tip (node.set_Mempool pool n) now tip Htip Hrange)
      as (n1 & calls & Hrun & Hpool & [tip1 Htip1] & Hheight).
    rewrite Hrun. cbn [fst snd].
    assert (Hrange1 : 0 <= store.Height (node.BlockStore n1) < 2 ^ 64).
    { rewrite Hheight. destruct (length _ =? 0)%nat; [exact Hrange|].
      unfold wrap64. apply Z.mod_pos_bound. lia. }
    destruct (IH n1 tip1 Htip1 Hrange1) as [Htip2 Hheight2].
    split; [exact Htip2|].
    rewrite Hheight2, Hheight. cbn [List.filter snd node.Mempool node.set_Mempool node.BlockStore].
    destruct (length _ =? 0)%nat; simpl negb; cbv iota.
    + reflexivity.
    + unfold wrap64. rewrite Z.add_mod_idemp_l by lia. f_equal.
      rewrite length_cons, Nat2Z.inj_succ. lia.
Qed.

End Chain.

(** ** [OnStart] and [OnStop]: failures and order *)
Section Lifecycle.
Context {S M D P A E G : Type}.
Context `{!store.Store S} `{!mempool.Mempool M}
        `{!da.DataAvailabilityLayerClient D} `{!p2p.Client P}.

Implicit Types (n : node.Node S M D P A E G).

(** X11. When the network client does not start, [OnStart] returns its
    error behind ["error while starting P2P client: "] and has done nothing
    else: the DA client is not started, no loop is launched and no handler
    is installed. *)
Theorem OnStart_P2P_failure n p e :
  p2p.Start (node.P2P n) = (p, Some e) ->
  node.OnStart n
  = (Some ("error while starting P2P client: " +:+ e), node.set_P2P p n, [node.P2P_Start]).
Proof.
  intros Hstart. unfold node.OnStart, node.bind, node.call_P2P_Start.
  rewrite Hstart. reflexivity.
Qed.

(** X12. When the network client starts and the DA client does not,
    [OnStart] returns the DA client's error behind
    ["error while starting data availability layer client: "]; no loop is
    launched and no handler installed, and the network client is left
    started: it is not closed. *)
Theorem OnStart_dalc_failure n p d e :
  p2p.Start (node.P2P n) = (p, None) ->
  da.Start (node.dalc n) = (d, Some e) ->
  node.OnStart n
  = (Some ("error while starting data availability layer client: " +:+ e),
     node.set_dalc d (node.set_P2P p n),
     [node.P2P_Start; node.dalc_Start]).
Proof.
  intros Hp2p Hda.
  unfold node.OnStart, node.bind, node.call_P2P_Start, node.call_dalc_Start.
  rewrite Hp2p. cbn [node.dalc node.set_P2P]. rewrite Hda. reflexivity.
Qed.

(** X13. [OnStop] stops the DA client and then closes the network client,
    whatever the first answers; the error it logs is nil exactly when both
    answered nil; the pool and the block store are left alone. *)
Theorem OnStop_stops_both n :
  let r := node.OnStop n in
  snd r = [node.dalc_Stop; node.P2P_Close] /\
  node.dalc (snd (fst r)) = fst (da.Stop (node.dalc n)) /\
  node.P2P (snd (fst r)) = fst (p2p.Close (node.P2P n)) /\
  (fst (fst r) = None <->
   snd (da.Stop (node.dalc n)) = None /\ snd (p2p.Close (node.P2P n)) = None) /\
  node.Mempool (snd (fst r)) = node.Mempool n /\
  node.BlockStore (snd (fst r)) = node.BlockStore n.
Proof.
  cbv zeta.
  unfold node.OnStop, node.bind, node.call_dalc_Stop, node.call_P2P_Close, node.ret.
  destruct (da.Stop (node.dalc n)) as [d e1]. cbn [node.P2P node.set_dalc].
  destruct (p2p.Close (node.P2P n)) as [p e2]. cbn.
  split; [reflexivity|]. split; [reflexivity|]. split; [reflexivity|].
  split; [|split; reflexivity].
  destruct e1, e2; cbn; intuition congruence.
Qed.

End Lifecycle.

(** ** [NewNode]: the order of its steps *)
Section ConstructionEdges.
Context {D P A E C CP : Type}.
Context `{!da.DataAvailabilityLayerClient D} `{!p2p.Client P}
        `{!proxy.AppConns C A} `{!proxy.EventBus E} `{!registry.Registry D}.

Implicit Types (conf : config.NodeConfig) (nodeKey : option bytes)
  (clientCreator : C) (genesis : lltypes.GenesisDoc CP).

(** [NewNode] gives a node only when its five steps succeed; the node and
    the calls are then these. *)
Lemma NewNode_Ok_inv conf nodeKey clientCreator genesis n calls :
  node.NewNode (A:=A) (E:=E) (P:=P) conf nodeKey clientCreator genesis = (Ok n, calls) ->
  exists proxyApp eventBus client dalc0 dalc,
    proxy.Start (proxy.NewAppConns clientCreator) = (proxyApp, None) /\
    proxy.EventBus_Start proxy.NewEventBus = (eventBus, None) /\
    p2p.NewClient (config.P2P conf) nodeKey (lltypes.ChainID genesis) = Ok client /\
    registry.GetClient (config.DALayer conf) = Some dalc0 /\
    da.Init (config.DAConfig conf) dalc0 = (dalc, None) /\
    n = {| node.eventBus := eventBus; node.proxyApp := proxyApp;
           node.genesis := genesis; node.conf := conf; node.P2P := client;
           node.Mempool := mempool.NewCListMempool;
           node.BlockStore := store.NewBlockStore; node.dalc := dalc |} /\
    calls = [node.proxyApp_Start; node.eventBus_Start; node.p2p_NewClient;
             node.registry_GetClient (config.DALayer conf); node.dalc_Init].
Proof.
  unfold node.NewNode, node.after, node.logged.
  destruct (proxy.Start (proxy.NewAppConns clientCreator)) as [a [e|]] eqn:Hproxy;
    [discriminate|].
  destruct (proxy.EventBus_Start proxy.NewEventBus) as [b [e|]] eqn:Hbus; [discriminate|].
  destruct (p2p.NewClient (config.P2P conf) nodeKey (lltypes.ChainID genesis)) as [c|e]
    eqn:Hclient; [|discriminate].
  destruct (registry.GetClient (config.DALayer conf)) as [d0|] eqn:Hget; [|discriminate].
  destruct (da.Init (config.DAConfig conf) d0) as [d [e|]] eqn:Hinit; [discriminate|].
  cbn. intros [= <- <-]. exists a, b, c, d0, d.
  repeat split; solve [reflexivity | assumption].
Qed.

(** X14. When the application connections and the event bus start, the
    network client is created, the backend is registered and accepts its
    configuration, [NewNode] returns a node that holds the initialised DA
    client, the network client, an empty pool and an empty block store; on
    the DA client it has called [Init] once and nothing else. *)
Theorem NewNode_succeeds conf nodeKey clientCreator genesis proxyApp eventBus client dalc0 dalc :
  proxy.Start (proxy.NewAppConns clientCreator) = (proxyApp, None) ->
  proxy.EventBus_Start proxy.NewEventBus = (eventBus, None) ->
  p2p.NewClient (config.P2P conf) nodeKey (lltypes.ChainID genesis) = Ok client ->
  registry.GetClient (config.DALayer conf) = Some dalc0 ->
  da.Init (config.DAConfig conf) dalc0 = (dalc, None) ->
  node.NewNode conf nodeKey clientCreator genesis
  = (Ok {| node.eventBus := eventBus; node.proxyApp := proxyApp;
           node.genesis := genesis; node.conf := conf; node.P2P := client;
           node.Mempool := mempool.NewCListMempool;
           node.BlockStore := store.NewBlockStore; node.dalc := dalc |},
     [node.proxyApp_Start; node.eventBus_Start; node.p2p_NewClient;
      node.registry_GetClient (config.DALayer conf); node.dalc_Init]).
Proof.
  intros Hproxy Hbus Hclient Hget Hinit.
  unfold node.NewNode, node.after, node.logged.
  rewrite Hproxy, Hbus, Hclient, Hget, Hinit. reflexivity.
Qed.

(** X15. When the registered backend refuses its configuration, [NewNode]
    returns no node but the error of [Init] behind
    ["data availability layer client initialization error: "]. *)
Theorem NewNode_Init_error conf nodeKey clientCreator genesis proxyApp eventBus client dalc0 dalc e :
  proxy.Start (proxy.NewAppConns clientCreator) = (proxyApp, None) ->
  proxy.EventBus_Start proxy.NewEventBus = (eventBus, None) ->
  p2p.NewClient (config.P2P conf) nodeKey (lltypes.ChainID genesis) = Ok client ->
  registry.GetClient (config.DALayer conf) = Some dalc0 ->
  da.Init (config.DAConfig conf) dalc0 = (dalc, Some e) ->
  node.NewNode (A:=A) (E:=E) (P:=P) conf nodeKey clientCreator genesis
  = (Err ("data availability layer client initialization error: " +:+ e),
     [node.proxyApp_Start; node.eventBus_Start; node.p2p_NewClient;
      node.registry_GetClient (config.DALayer conf); node.dalc_Init]).
Proof.
  intros Hproxy Hbus Hclient Hget Hinit.
  unfold node.NewNode, node.after, node.logged.
  rewrite Hproxy, Hbus, Hclient, Hget, Hinit. reflexivity.
Qed.

(** X16. [NewNode] stops at its first failing step: when the application
    connections do not start it returns their error behind
    ["error starting proxy app connections: "] and has made no other call;
    in particular it has not looked the DA backend up. *)
Theorem NewNode_proxy_failure conf nodeKey clientCreator genesis proxyApp e :
  proxy.Start (proxy.NewAppConns clientCreator) = (proxyApp, Some e) ->
  node.NewNode (A:=A) (E:=E) (P:=P) (D:=D) conf nodeKey clientCreator genesis
  = (Err ("error starting proxy app connections: " +:+ e), [node.proxyApp_Start]).
Proof.
  intros Hproxy. unfold node.NewNode, node.after, node.logged.
  rewrite Hproxy. reflexivity.
Qed.

(** X17. Whatever node [NewNode] returns has an empty pool and an empty
    block store, and the backend its configuration names is registered;
    on such a node no tick of the aggregation loop ever saves a block,
    whatever the pool holds by then. *)
Theorem NewNode_node_produces_nothing
    `{!types.Hashable types.Header} `{!types.Hashable types.Data}
    conf nodeKey clientCreator genesis
    (n : node.Node store.DefaultBlockStore mempool.CListMempool D P A E (lltypes.GenesisDoc CP))
    calls :
  node.NewNode conf nodeKey clientCreator genesis = (Ok n, calls) ->
  node.Mempool n = mempool.NewCListMempool /\
  node.BlockStore n = store.NewBlockStore /\
  is_Some (registry.clients !! config.DALayer conf) /\
  forall ticks : list (Z * mempool.CListMempool),
    node.BlockStore (snd (fst (node.aggregation_ticks ticks n))) = store.NewBlockStore.
Proof.
  intros Hnew.
  destruct (NewNode_Ok_inv _ _ _ _ _ _ Hnew)
    as (a & b & c & d0 & d & _ & _ & _ & Hget & _ & -> & _).
  split; [reflexivity|]. split; [reflexivity|]. split.
  - exists d0. exact Hget.
  - intros ticks. apply aggregation_ticks_keep_empty_store. reflexivity.
Qed.

End ConstructionEdges.

(** ** The gossip loop under any inputs *)
Section GossipOrder.

Implicit Types (l : publish.Loop) (env : publish.Env) (envs : list publish.Env)
  (t : list publish.Event).

Lemma sent_app t t' : publish.sent (t ++ t') = (publish.sent t ++ publish.sent t')%list.
Proof. unfold publish.sent. apply omap_app. Qed.

Lemma step_orderly env l t :
  publish.orderly l t ->
  publish.orderly (fst (publish.step env l)) (t ++ snd (publish.step env l)).
Proof.
  intros [[Hwork Hsent] | [Hret (c & Hc & Hsent)]].
  - unfold publish.at_work in Hwork.
    unfold publish.orderly, publish.at_work, publish.step, publish.select, publish.top,
      publish.passed in *.
    destruct l as [pool nx pc]; cbn [publish.rawMempool publish.next publish.pc] in *.
    set (pool' := (pool ++ publish.admitted env)%list).
    assert (Htake : forall k, (k <= length pool)%nat -> take k pool' = take k pool).
    { intros k Hk. unfold pool'. apply take_app_le. exact Hk. }
    assert (Hlen : (length pool <= length pool')%nat).
    { unfold pool'. rewrite length_app. lia. }
    destruct pc; try contradiction.
    + destruct nx as [e|]; [contradiction|].
      destruct pool' as [|m0 pool''] eqn:Hpool';
        destruct (publish.Done env), (publish.pick_Done env); cbn;
        rewrite ?app_nil_r;
        solve [ left; split; [first [exact I | lia] | exact Hsent]
              | right; split; [reflexivity|]; exists 0%nat; split; [lia | exact Hsent] ].
    + destruct nx as [e|]; [|contradiction].
      destruct (lookup_lt_is_Some_2 pool' e ltac:(lia)) as [memTx HmemTx].
      rewrite HmemTx.
      destruct (publish.GossipTx_err env) as [err|]; cbn.
      * left. split; [lia|]. rewrite sent_app, app_nil_r, Htake by lia. exact Hsent.
      * unfold publish.Next.
        destruct (S e <? length pool')%nat eqn:Hnext; cbn;
          left; (split; [first [apply Nat.ltb_lt in Hnext; lia | lia]|]);
          rewrite sent_app, (take_S_r pool' e memTx HmemTx), map_app, Htake by lia;
          rewrite Hsent; reflexivity.
    + destruct nx as [e|]; [|contradiction].
      unfold publish.NextWaitChan_ready, publish.Next.
      destruct (S e <? length pool')%nat eqn:Hnext;
        destruct (publish.Done env), (publish.pick_Done env); cbn;
        rewrite ?app_nil_r;
        try (apply Nat.ltb_lt in Hnext);
        solve [ left; split; [lia | rewrite Htake by lia; exact Hsent]
              | right; split; [reflexivity|]; exists (S e); split;
                [lia | rewrite Htake by lia; exact Hsent] ].
  - right. unfold publish.step. rewrite Hret. cbn. split; [reflexivity|].
    exists c. rewrite app_nil_r, length_app, take_app_le by exact Hc.
    split; [lia | exact Hsent].
Qed.

Lemma run_orderly envs : forall l t,
  publish.orderly l t ->
  publish.orderly (fst (publish.run envs l)) (t ++ snd (publish.run envs l)).
Proof.
  induction envs as [|env envs IH]; intros l t Horderly.
  - cbn. rewrite app_nil_r. exact Horderly.
  - cbn [publish.run].
    pose proof (step_orderly env l t Horderly) as Hstep.
    destruct (publish.step env l) as [l1 t1]. cbn [fst snd] in Hstep.
    specialize (IH l1 (t ++ t1)%list Hstep).
    destruct (publish.run envs l1) as [l2 t2]. cbn [fst snd] in *.
    rewrite app_assoc. exact IH.
Qed.

Lemma start_orderly pool : publish.orderly (publish.start pool) [].
Proof. left. split; [exact I|reflexivity]. Qed.

(** X18. Whatever the inputs (admissions, cancellation, choices of the
    [select]s, answers of the network), the gossip loop never dereferences
    a nil cursor or a cursor outside the pool: it never panics. *)
Theorem publish_loop_never_panics pool envs :
  publish.pc (fst (publish.run envs (publish.start pool))) <> publish.Panicked.
Proof.
  pose proof (run_orderly envs _ _ (start_orderly pool)) as [[Hwork _] | [Hret _]].
  - unfold publish.at_work in Hwork. intros Hpanic. rewrite Hpanic in Hwork.
    exact Hwork.
  - rewrite Hret. discriminate.
Qed.

(** X19. The transactions the loop has gossiped without error are, in
    this order and once each, the first entries of the pool: no entry is
    skipped, sent out of order or sent again after it went through. *)
Theorem publish_loop_sends_in_pool_order pool envs :
  exists c,
    (c <= length (publish.rawMempool (fst (publish.run envs (publish.start pool)))))%nat /\
    publish.sent (snd (publish.run envs (publish.start pool)))
    = map mempool.tx
        (take c (publish.rawMempool (fst (publish.run envs (publish.start pool))))).
Proof.
  pose proof (run_orderly envs _ _ (start_orderly pool)) as [[Hwork Hsent] | [_ Hc]].
  - exists (publish.passed (fst (publish.run envs (publish.start pool)))).
    split; [apply at_work_passed_le; exact Hwork | exact Hsent].
  - exact Hc.
Qed.

(** X20. At either [select] with nothing to do (no entry in the pool, or
    no successor of the cursor's entry), the loop blocks without a call
    while the context is not done, and returns at the step that finds it
    done; once it has returned it makes no further call. *)
Theorem publish_loop_idle_wait env l :
  publish.at_work l ->
  publish.pc l <> publish.Send ->
  publish.passed l = length (publish.rawMempool l ++ publish.admitted env)%list ->
  snd (publish.step env l) = [] /\
  publish.next (fst (publish.step env l)) = publish.next l /\
  publish.pc (fst (publish.step env l))
  = (if publish.Done env then publish.Returned else publish.pc l) /\
  (publish.Done env = true ->
   forall envs, snd (publish.run envs (fst (publish.step env l))) = [] /\
                publish.pc (fst (publish.run envs (fst (publish.step env l))))
                = publish.Returned).
Proof.
  intros Hwork Hpc Hidle.
  assert (Hreturned : forall envs l', publish.pc l' = publish.Returned ->
            snd (publish.run envs l') = [] /\
            publish.pc (fst (publish.run envs l')) = publish.Returned).
  { induction envs as [|env' envs IH]; intros l' Hl'; [split; [reflexivity|exact Hl']|].
    cbn [publish.run]. unfold publish.step at 1 2. rewrite Hl'.
    match goal with
    | |- context [publish.run envs ?l1] =>
        destruct (IH l1 eq_refl) as [Ht Hp]; destruct (publish.run envs l1) as [l2 t2]
    end.
    cbn in *. subst t2. split; [reflexivity|exact Hp]. }
  unfold publish.at_work, publish.passed in *.
  unfold publish.step, publish.select, publish.NextWaitChan_ready.
  destruct (publish.pc l) eqn:Hl; try contradiction;
    destruct (publish.next l) as [e|] eqn:Hnext; try contradiction.
  - destruct (publish.rawMempool l ++ publish.admitted env)%list as [|m pool'] eqn:Hpool;
      [|discriminate Hidle].
    cbn. destruct (publish.Done env); cbn;
      (split; [reflexivity|]); (split; [reflexivity|]); (split; [reflexivity|]).
    + intros _ envs. apply Hreturned. reflexivity.
    + discriminate.
  - assert (Hnone : (S e <? length (publish.rawMempool l ++ publish.admitted env))%nat = false)
      by (apply Nat.ltb_ge; lia).
    rewrite Hnone. destruct (publish.Done env); cbn;
      (split; [reflexivity|]); (split; [reflexivity|]); (split; [reflexivity|]).
    + intros _ envs. apply Hreturned. reflexivity.
    + discriminate.
Qed.

End GossipOrder.

(** ** The ingestion loop and the aggregation loop *)
Section Ingestion.
Context {M I : Type} `{!mempool.Mempool M} `{!ingest.PeerIDs I}.

Implicit Types (l : ingest.Loop M I) (env : ingest.Env) (envs : list ingest.Env).

Lemma offered_cons env envs :
  ingest.offered (env :: envs)
  = match ingest.incoming env with
    | Some tx => p2p.Data tx :: ingest.offered envs
    | None => ingest.offered envs
    end.
Proof. unfold ingest.offered. cbn. destruct (ingest.incoming env); reflexivity. Qed.

(** X21. While the context is not done the ingestion loop takes every
    transaction offered on [incomingTxCh] and passes its bytes to [CheckTx],
    in the order offered, and is still in its [select] afterwards: an error
    of [CheckTx] neither stops the loop nor drops a later transaction. *)
Theorem ingest_checks_every_tx envs : forall l,
  ingest.pc l = ingest.Select ->
  Forall (fun env => ingest.Done env = false) envs ->
  ingest.pc (fst (ingest.run envs l)) = ingest.Select /\
  ingest.checked (snd (ingest.run envs l)) = ingest.offered envs.
Proof.
  induction envs as [|env envs IH]; intros l Hpc Hdone.
  - split; [exact Hpc|reflexivity].
  - inversion Hdone as [|? ? Henv Hrest]; subst.
    cbn [ingest.run]. unfold ingest.step. rewrite Hpc, Henv, offered_cons.
    destruct (ingest.incoming env) as [tx|]; cbn [andb].
    + destruct (ingest.GetForPeer (p2p.From tx) (ingest.mempoolIDs l)) as [ids id].
      destruct (mempool.CheckTx (p2p.Data tx) _ (ingest.Mempool l)) as [m err].
      match goal with
      | |- context [ingest.run envs ?l1] =>
          destruct (IH l1 eq_refl Hrest) as [Hp Hc]; destruct (ingest.run envs l1) as [l2 t2]
      end.
      cbn in *. split; [exact Hp|]. rewrite Hc. reflexivity.
    + destruct (IH l Hpc Hrest) as [Hp Hc]. destruct (ingest.run envs l) as [l2 t2].
      cbn in *. split; [exact Hp|exact Hc].
Qed.

(** X22. With nothing on [incomingTxCh] and the context done, the
    ingestion loop returns; after that it calls [CheckTx] no more and the
    pool stays as it is, whatever is offered. *)
Theorem ingest_returns_on_Done env l :
  ingest.pc l = ingest.Select ->
  ingest.incoming env = None ->
  ingest.Done env = true ->
  ingest.pc (fst (ingest.step env l)) = ingest.Returned /\
  forall envs,
    snd (ingest.run envs (fst (ingest.step env l))) = [] /\
    ingest.Mempool (fst (ingest.run envs (fst (ingest.step env l)))) = ingest.Mempool l /\
    ingest.pc (fst (ingest.run envs (fst (ingest.step env l)))) = ingest.Returned.
Proof.
  intros Hpc Hnone Hdone. unfold ingest.step at 1 2 3 4. rewrite Hpc, Hnone, Hdone.
  cbn [fst]. split; [reflexivity|].
  induction envs as [|env' envs IH]; [repeat split; reflexivity|].
  cbn [ingest.run]. unfold ingest.step at 1 2 3. cbn [ingest.pc].
  destruct IH as (Ht & Hm & Hp).
  destruct (ingest.run envs _) as [l2 t2]. cbn in *. subst t2.
  repeat split; assumption.
Qed.

End Ingestion.

Section Aggregation.
Context {S M D P A E G : Type}.
Context `{!store.Store S} `{!mempool.Mempool M}
        `{!da.DataAvailabilityLayerClient D} `{!p2p.Client P}.
Context `{!types.Hashable types.Header} `{!types.Hashable types.Data}.

Implicit Types (n : node.Node S M D P A E G).

(** X23. [OnStart] does not look at the block time: on an aggregator whose
    configured block time is zero or negative, when the network client and
    the DA client start, it returns nil and launches the aggregation loop,
    and that loop panics on creating its ticker. *)
Theorem OnStart_accepts_bad_BlockTime n p d :
  config.Aggregator (node.conf n) = true ->
  config.BlockTime (node.conf n) <= 0 ->
  p2p.Start (node.P2P n) = (p, None) ->
  da.Start (node.dalc n) = (d, None) ->
  fst (fst (node.OnStart n)) = None /\
  In (node.go_ node.go_aggregationLoop) (snd (node.OnStart n)) /\
  aggregate.start (snd (fst (node.OnStart n))) = aggregate.Panicked.
Proof.
  intros Hagg Htime Hp2p Hda.
  unfold node.OnStart, node.bind, node.call_P2P_Start, node.call_dalc_Start,
    node.spawn, node.get_conf, node.call_P2P_SetTxHandler, node.ret.
  rewrite Hp2p. cbn [node.dalc node.set_P2P]. rewrite Hda.
  cbn [node.conf node.set_dalc node.set_P2P]. rewrite Hagg. cbn.
  split; [reflexivity|]. split; [tauto|].
  unfold aggregate.start. cbn [node.conf node.set_dalc node.set_P2P].
  destruct (Z.leb_spec (config.BlockTime (node.conf n)) 0); [reflexivity|lia].
Qed.

(** X24. While the context is not done the aggregation loop stays in its
    [select] after any number of steps, whatever [publishBlock] returned
    at each tick: no error of a tick ends the loop. *)
Theorem aggregation_survives_errors (envs : list (aggregate.Env * M)) : forall n,
  Forall (fun e => aggregate.Done (fst e) = false) envs ->
  snd (fst (aggregate.run envs (n, aggregate.Select))) = aggregate.Select.
Proof.
  induction envs as [|[env pool] envs IH]; intros n Hdone; [reflexivity|].
  inversion Hdone as [|? ? Henv Hrest]; subst. cbn [fst] in Henv.
  cbn [aggregate.run fst snd]. unfold aggregate.step. rewrite Henv. cbn [andb].
  destruct (aggregate.tick env) as [now|].
  - destruct (node.publishBlock now (node.set_Mempool pool n)) as [[err n1] calls].
    specialize (IH n1 Hrest).
    destruct (aggregate.run envs (n1, aggregate.Select)) as [[n2 pc2] t2]. exact IH.
  - specialize (IH (node.set_Mempool pool n) Hrest).
    destruct (aggregate.run envs (node.set_Mempool pool n, aggregate.Select))
      as [[n2 pc2] t2]. exact IH.
Qed.

End Aggregation.

(** ** The mock DA client *)

(** X25. The mock client answers every [SubmitBlock] with [StatusSuccess]
    and ["OK"], and after any sequence of submissions holds what it held
    before followed by the submitted blocks, in the order submitted and with
    repetitions kept. *)
Theorem mock_records_submissions blocks : forall m : mock.MockDataAvailabilityLayerClient,
  session.submit_all blocks m
  = ({| mock.Blocks := (mock.Blocks m ++ blocks)%list |},
     repeat {| da.Code := da.StatusSuccess; da.Message := "OK" |} (length blocks)).
Proof.
  induction blocks as [|b blocks IH]; intros [recorded].
  - cbn. rewrite app_nil_r. reflexivity.
  - cbn [session.submit_all]. cbn [da.SubmitBlock mock.Mock_Client mock.SubmitBlock mock.Blocks].
    rewrite IH. cbn. rewrite <- app_assoc. reflexivity.
Qed.

(** * The further properties on concrete inputs *)

(** X1 on a document without a chain id. *)
Lemma NewFromGenesisDoc_invalid_witness :
  state.NewFromGenesisDoc (VS:=list testing.Validator)
    {| lltypes.GenesisTime := 0; lltypes.ChainID := ""; lltypes.InitialHeight := 1;
       lltypes.ConsensusParams := Some 1; lltypes.Validators := None;
       lltypes.AppHash := [] |}
  = Return (Err "error in genesis doc: genesis doc must include non-empty chain_id").
Proof.
  exact (NewFromGenesisDoc_invalid (VS:=list testing.Validator)
           {| lltypes.GenesisTime := 0; lltypes.ChainID := ""; lltypes.InitialHeight := 1;
              lltypes.ConsensusParams := Some 1; lltypes.Validators := None;
              lltypes.AppHash := [] |}
           "genesis doc must include non-empty chain_id" eq_refl).
Defined.

(** X2 on the test document. *)
Lemma NewFromGenesisDoc_identity_witness :
  exists st,
    state.NewFromGenesisDoc testing.genesisDoc = Return (Ok st) /\
    state.Consensus_App (state.Version_Consensus (state.State_Version st)) = 0 /\
    state.State_ChainID st = "test" /\
    state.State_InitialHeight st = 1 /\
    state.LastValidators st = [].
Proof.
  edestruct (NewFromGenesisDoc_identity testing.genesisDoc)
    as (st & Hst & _ & Happ & _ & Hchain & Hinit & _ & _ & Hlast & _).
  - reflexivity.
  - reflexivity.
  - reflexivity.
  - reflexivity.
  - exists st. repeat split; assumption.
Defined.

(** X3 on a document with nil validators. *)
Lemma NewFromGenesisDoc_nil_validators_witness :
  exists st,
    state.NewFromGenesisDoc
      {| lltypes.GenesisTime := 0; lltypes.ChainID := "test"; lltypes.InitialHeight := 1;
         lltypes.ConsensusParams := Some 1; lltypes.Validators := None;
         lltypes.AppHash := [] |}
    = Return (Ok st) /\
    state.Validators st = ([] : list testing.Validator) /\
    state.NextValidators st = [] /\
    state.LastValidators st = [].
Proof.
  eapply (NewFromGenesisDoc_nil_validators
            {| lltypes.GenesisTime := 0; lltypes.ChainID := "test"; lltypes.InitialHeight := 1;
               lltypes.ConsensusParams := Some 1; lltypes.Validators := None;
               lltypes.AppHash := [] |}); reflexivity.
Defined.

(** X4 on a document whose list of validators is empty but not nil, with
    a library that panics on incrementing an empty set. *)
Lemma NewFromGenesisDoc_panics_witness :
  state.NewFromGenesisDoc (VS:=list testing.Validator) faults.genesisDoc_no_validators
  = Panic "empty validator set".
Proof.
  eapply (NewFromGenesisDoc_panics (VS:=list testing.Validator)
            faults.genesisDoc_no_validators _ []).
  - reflexivity.
  - reflexivity.
  - right. exists []. split; reflexivity.
Defined.

(** X5 with a header digest that cannot be computed. *)
Lemma makeBlock_hash_errors_witness :
  fst (fst (node.makeBlock (H3:=faults.no_Hash_Header) 5 2 [testing.hello]
              (testing.testNode true testing.store_1 testing.pool_hello)))
  = Err "marshal error".
Proof.
  apply (makeBlock_hash_errors (H3:=faults.no_Hash_Header)
           (testing.testNode true testing.store_1 testing.pool_hello)
           5 2 [testing.hello] (testing.block 1) "marshal error").
  - reflexivity.
  - left. reflexivity.
Defined.

(** X6 at height 2 on a store holding block 1, with a clock before the epoch. *)
Lemma makeBlock_block_invariants_witness :
  exists block,
    fst (fst (node.makeBlock (-1) 2 [testing.hello]
                (testing.testNode true testing.store_1 testing.pool_hello))) = Ok block /\
    types.Hash (types.Block_Data block) = Ok (types.DataHash (types.Block_Header block)) /\
    types.Time (types.Block_Header block) = 2 ^ 64 - 1.
Proof.
  eexists. split; [reflexivity|].
  edestruct (makeBlock_block_invariants
               (testing.testNode true testing.store_1 testing.pool_hello)
               (-1) 2 [testing.hello])
    as (Hdata & _ & _ & Htime & _); [reflexivity|].
  split; [exact Hdata|exact Htime].
Defined.

(** X7 at the top of the range: on a store at height 2^64-1 the new block
    has height 0. *)
Lemma publishBlock_builds_on_tip_witness :
  exists rest,
    snd (node.publishBlock 5
           (testing.testNode true
              (fst (store.SaveBlock (testing.block (2 ^ 64 - 1)) store.NewBlockStore))
              testing.pool_hello))
    = ([node.Mempool_ReapMaxBytesMaxGas (32 * 1024) (-1);
        node.BlockStore_Height;
        node.BlockStore_LoadBlock (2 ^ 64 - 1)] ++ rest)%list /\
    exists block,
      rest = [node.BlockStore_SaveBlock block] /\
      types.Height (types.Block_Header block) = 0.
Proof.
  edestruct (publishBlock_builds_on_tip
               (testing.testNode true
                  (fst (store.SaveBlock (testing.block (2 ^ 64 - 1)) store.NewBlockStore))
                  testing.pool_hello) 5)
    as (rest & Hcalls & Hrest).
  - cbn. lia.
  - discriminate.
  - exists rest. split; [exact Hcalls|].
    destruct Hrest as [[_ Herr] | (block & Hrest & Hheight & _)].
    + exfalso. apply Herr. reflexivity.
    + exists block. split; [exact Hrest|exact Hheight].
Defined.

(** X8 on a store that cannot save. *)
Lemma publishBlock_save_error_witness :
  fst (fst (node.publishBlock 5 (faults.faultyNode None None None None)))
  = Some "disk full".
Proof.
  erewrite (publishBlock_save_error (faults.faultyNode None None None None) 5).
  - reflexivity.
  - discriminate.
  - reflexivity.
  - reflexivity.
Defined.

(** X10 on three ticks, the second one with an empty pool. *)
Lemma ticks_extend_chain_witness :
  store.Height
    (node.BlockStore
       (snd (fst (node.aggregation_ticks
                    [(5, testing.pool_hello); (6, mempool.NewCListMempool);
                     (7, testing.pool_hello)]
                    (testing.testNode true testing.store_1 testing.pool_hello)))))
  = 3.
Proof.
  assert (Hheader : forall hd : types.Header, exists d, types.Hash hd = Ok d)
    by (intros hd; eexists; reflexivity).
  assert (Hdata : forall data : types.Data, exists d, types.Hash data = Ok d)
    by (intros data; eexists; reflexivity).
  edestruct (ticks_extend_chain Hheader Hdata
               [(5, testing.pool_hello); (6, mempool.NewCListMempool);
                (7, testing.pool_hello)]
               (testing.testNode true testing.store_1 testing.pool_hello)
               (testing.block 1))
    as [_ Hheight].
  - reflexivity.
  - cbn. lia.
  - rewrite Hheight. reflexivity.
Defined.

(** X11 on a network client that does not start. *)
Lemma OnStart_P2P_failure_witness :
  node.OnStart (faults.faultyNode (Some "address in use") None None None)
  = (Some "error while starting P2P client: address in use",
     faults.faultyNode (Some "address in use") None None None,
     [node.P2P_Start]).
Proof.
  exact (OnStart_P2P_failure (faults.faultyNode (Some "address in use") None None None)
           _ "address in use" eq_refl).
Defined.

(** X12 on a DA client that does not start. *)
Lemma OnStart_dalc_failure_witness :
  node.OnStart (faults.faultyNode None (Some "no keyring") None None)
  = (Some "error while starting data availability layer client: no keyring",
     faults.faultyNode None (Some "no keyring") None None,
     [node.P2P_Start; node.dalc_Start]).
Proof.
  exact (OnStart_dalc_failure (faults.faultyNode None (Some "no keyring") None None)
           _ _ "no keyring" eq_refl eq_refl).
Defined.

(** X14 with the mock backend. *)
Lemma NewNode_succeeds_witness :
  exists n,
    node.NewNode (D:=mock.MockDataAvailabilityLayerClient) (P:=testing.Net)
      (A:=option error) (E:=unit)
      (testing.nodeConfig true "mock") (Some []) (None : option error) testing.genesisDoc
    = (Ok n,
       [node.proxyApp_Start; node.eventBus_Start; node.p2p_NewClient;
        node.registry_GetClient "mock"; node.dalc_Init]) /\
    node.BlockStore n = store.NewBlockStore /\
    node.dalc n = {| mock.Blocks := [] |}.
Proof.
  assert (Hget : registry.GetClient (D:=mock.MockDataAvailabilityLayerClient)
                   (config.DALayer (testing.nodeConfig true "mock"))
                 = Some {| mock.Blocks := [] |}) by reflexivity.
  eexists. split.
  - eapply (NewNode_succeeds (D:=mock.MockDataAvailabilityLayerClient) (P:=testing.Net)
              (A:=option error) (E:=unit)
              (testing.nodeConfig true "mock") (Some []) (None : option error)
              testing.genesisDoc).
    + reflexivity.
    + reflexivity.
    + reflexivity.
    + exact Hget.
    + reflexivity.
  - split; reflexivity.
Defined.

(** X15 with a backend that refuses its configuration. *)
Lemma NewNode_Init_error_witness :
  fst (node.NewNode (D:=faults.DA) (P:=testing.Net) (A:=option error) (E:=unit)
         (testing.nodeConfig true "strict") (Some []) (None : option error)
         testing.genesisDoc)
  = Err "data availability layer client initialization error: bad config".
Proof.
  assert (Hget : registry.GetClient (D:=faults.DA)
                   (config.DALayer (testing.nodeConfig true "strict"))
                 = Some {| faults.init_err := Some "bad config"; faults.da_start_err := None;
                           faults.stop_err := None; faults.submitted := [] |})
    by reflexivity.
  erewrite (NewNode_Init_error (D:=faults.DA) (P:=testing.Net) (A:=option error) (E:=unit)
              (testing.nodeConfig true "strict") (Some []) (None : option error)
              testing.genesisDoc).
  - reflexivity.
  - reflexivity.
  - reflexivity.
  - reflexivity.
  - exact Hget.
  - reflexivity.
Defined.

(** X16 with an application that cannot be reached. *)
Lemma NewNode_proxy_failure_witness :
  node.NewNode (D:=mock.MockDataAvailabilityLayerClient) (P:=testing.Net)
    (A:=option error) (E:=unit)
    (testing.nodeConfig true "mock") (Some []) (Some "connection refused")
    testing.genesisDoc
  = (Err "error starting proxy app connections: connection refused",
     [node.proxyApp_Start]).
Proof.
  eapply (NewNode_proxy_failure (D:=mock.MockDataAvailabilityLayerClient) (P:=testing.Net)
            (A:=option error) (E:=unit)
            (testing.nodeConfig true "mock") (Some []) (Some "connection refused")
            testing.genesisDoc).
  reflexivity.
Defined.

(** X17 on the node built with the mock backend: two ticks with ["hello"]
    pooled leave its store empty. *)
Lemma NewNode_node_produces_nothing_witness :
  match fst (node.NewNode (D:=mock.MockDataAvailabilityLayerClient) (P:=testing.Net)
               (A:=option error) (E:=unit)
               (testing.nodeConfig true "mock") (Some []) (None : option error)
               testing.genesisDoc) with
  | Ok n =>
      node.BlockStore
        (snd (fst (node.aggregation_ticks
                     [(5, testing.pool_hello); (6, testing.pool_hello)] n)))
      = store.NewBlockStore
  | Err _ => False
  end.
Proof.
  destruct (node.NewNode (D:=mock.MockDataAvailabilityLayerClient) (P:=testing.Net)
              (A:=option error) (E:=unit)
              (testing.nodeConfig true "mock") (Some []) (None : option error)
              testing.genesisDoc) as [[n|e] calls] eqn:Hnew.
  - destruct (NewNode_node_produces_nothing _ _ _ _ n calls Hnew) as (_ & _ & _ & Hticks).
    apply Hticks.
  - discriminate Hnew.
Defined.

(** X20 on a loop waiting on an empty pool when the context is done. *)
Lemma publish_loop_idle_wait_witness :
  publish.pc (fst (publish.step testing.network_down (publish.start [])))
  = publish.Returned /\
  snd (publish.run (repeat (testing.flaky_inputs 0) 3)
         (fst (publish.step testing.network_down (publish.start [])))) = [].
Proof.
  destruct (publish_loop_idle_wait testing.network_down (publish.start []))
    as (_ & _ & Hpc & Hafter).
  - exact I.
  - discriminate.
  - reflexivity.
  - split; [exact Hpc|]. apply (Hafter eq_refl).
Defined.

(** X21 on two transactions, the first of which the pool refuses. *)
Lemma ingest_checks_every_tx_witness :
  ingest.checked
    (snd (ingest.run
            [ {| ingest.incoming := Some {| p2p.Data := []; p2p.From := "P" |};
                 ingest.Done := false; ingest.pick_Done := false |};
              {| ingest.incoming := None;
                 ingest.Done := false; ingest.pick_Done := false |};
              {| ingest.incoming := Some {| p2p.Data := testing.hello; p2p.From := "Q" |};
                 ingest.Done := false; ingest.pick_Done := false |} ]
            {| ingest.Mempool := {| faults.accepted := [] |};
               ingest.mempoolIDs := ([] : list string);
               ingest.pc := ingest.Select |}))
  = [[]; testing.hello].
Proof.
  apply (ingest_checks_every_tx
           [ {| ingest.incoming := Some {| p2p.Data := []; p2p.From := "P" |};
                ingest.Done := false; ingest.pick_Done := false |};
             {| ingest.incoming := None;
                ingest.Done := false; ingest.pick_Done := false |};
             {| ingest.incoming := Some {| p2p.Data := testing.hello; p2p.From := "Q" |};
                ingest.Done := false; ingest.pick_Done := false |} ]
           {| ingest.Mempool := {| faults.accepted := [] |};
              ingest.mempoolIDs := ([] : list string);
              ingest.pc := ingest.Select |}).
  - reflexivity.
  - repeat constructor.
Defined.

(** X22 on an idle loop whose context is done; a transaction offered
    afterwards is not checked. *)
Lemma ingest_returns_on_Done_witness :
  snd (ingest.run
         [ {| ingest.incoming := Some {| p2p.Data := testing.hello; p2p.From := "Q" |};
              ingest.Done := true; ingest.pick_Done := false |} ]
         (fst (ingest.step
                 {| ingest.incoming := None; ingest.Done := true; ingest.pick_Done := false |}
                 {| ingest.Mempool := {| faults.accepted := [] |};
                    ingest.mempoolIDs := ([] : list string);
                    ingest.pc := ingest.Select |})))
  = [].
Proof.
  destruct (ingest_returns_on_Done
              {| ingest.incoming := None; ingest.Done := true; ingest.pick_Done := false |}
              {| ingest.Mempool := {| faults.accepted := [] |};
                 ingest.mempoolIDs := ([] : list string);
                 ingest.pc := ingest.Select |} eq_refl eq_refl eq_refl)
    as [_ Hafter].
  apply Hafter.
Defined.

(** X23 on an aggregator whose block time is left at zero. *)
Lemma OnStart_accepts_bad_BlockTime_witness :
  let n : testing.TestNode :=
    {| node.eventBus := tt; node.proxyApp := None; node.genesis := testing.genesisDoc;
       node.conf := {| config.P2P := {| config.ListenAddress := ""; config.Seeds := "" |};
                       config.Aggregator := true; config.BlockTime := 0;
                       config.DALayer := "mock"; config.DAConfig := [] |};
       node.P2P := {| testing.started := false; testing.handler := None |};
       node.Mempool := mempool.NewCListMempool;
       node.BlockStore := store.NewBlockStore;
       node.dalc := {| mock.Blocks := [] |} |} in
  fst (fst (node.OnStart n)) = None /\
  aggregate.start (snd (fst (node.OnStart n))) = aggregate.Panicked.
Proof.
  cbv zeta.
  match goal with
  | |- _ /\ aggregate.start (snd (fst (node.OnStart ?n))) = _ =>
      edestruct (OnStart_accepts_bad_BlockTime n) as (Hnil & _ & Hpanic)
  end.
  - reflexivity.
  - cbn. lia.
  - reflexivity.
  - reflexivity.
  - split; [exact Hnil|exact Hpanic].
Defined.

(** X24 on a new node: three ticks that all fail leave the loop running. *)
Lemma aggregation_survives_errors_witness :
  snd (fst (aggregate.run
              (repeat ({| aggregate.tick := Some 5; aggregate.Done := false;
                          aggregate.pick_Done := false |}, testing.pool_hello) 3)
              (testing.testNode true store.NewBlockStore testing.pool_hello,
               aggregate.Select)))
  = aggregate.Select.
Proof.
  apply (aggregation_survives_errors
           (repeat ({| aggregate.tick := Some 5; aggregate.Done := false;
                       aggregate.pick_Done := false |}, testing.pool_hello) 3)
           (testing.testNode true store.NewBlockStore testing.pool_hello)).
  repeat constructor.
Defined.
